(** * SigningKey (lib.esm/crypto/signing-key.js)

    A shallow embedding of the [SigningKey] class of ethers.js and of the
    properties its specification states about it.

    The class is a thin layer over the secp256k1 engine
    ([@noble/secp256k1]).  The engine is not part of the repository: it is
    a parameter of the development (record [CurveEngine]), and the
    properties that rest on its contract take that contract as a
    hypothesis.  The byte and hex helpers of [utils/index.js] and the
    [Signature] container of [crypto/signature.js] belong to the
    repository but not to this file; they are modelled from the
    specification. *)

From Stdlib Require Import ZArith NArith List String Ascii Bool Lia.
From Stdlib Require Import Strings.Byte Strings.HexString.
Import ListNotations.

#[local] Open Scope string_scope.
#[local] Open Scope Z_scope.

(** ** Bytes and hexadecimal text *)

Module Hex.

(** The lowercase hexadecimal digit of a nibble: the characters from
    [0] for 0 to 9 and from [a] for 10 to 15. *)
Definition nibble_char (n : N) : ascii :=
  ascii_of_N (if (n <? 10)%N then 48 + n else 87 + n)%N.

(** The value of a lowercase hexadecimal digit. *)
Definition hex_value (c : ascii) : option N :=
  let code := N_of_ascii c in
  if (48 <=? code)%N && (code <=? 57)%N then Some (code - 48)%N
  else if (97 <=? code)%N && (code <=? 102)%N then Some (code - 87)%N
  else None.

Definition byte_of_N (n : N) : byte :=
  match Byte.of_N n with Some b => b | None => x00 end.

Definition byte_of_Z (z : Z) : byte := byte_of_N (Z.to_N z).

Definition byte_to_Z (b : byte) : Z := Z.of_N (Byte.to_N b).

(** Two lowercase digits per byte, no prefix. *)
Fixpoint bytesToHex (bs : list byte) : string :=
  match bs with
  | [] => ""
  | b :: rest =>
      String (nibble_char (Byte.to_N b / 16))
        (String (nibble_char (Byte.to_N b mod 16)) (bytesToHex rest))
  end.

(** The bytes of an even run of lowercase digits; [None] on anything else. *)
Fixpoint hexToBytes (s : string) : option (list byte) :=
  match s with
  | "" => Some []
  | String hi (String lo rest) =>
      match hex_value hi, hex_value lo, hexToBytes rest with
      | Some h, Some l, Some bs => Some (byte_of_N (16 * h + l) :: bs)
      | _, _, _ => None
      end
  | String _ "" => None
  end.

(** Big-endian bytes of [z], exactly [w] of them (the value modulo
    [256^w]). *)
Fixpoint be_bytes (w : nat) (z : Z) : list byte :=
  match w with
  | O => []
  | S w' => (be_bytes w' (z / 256) ++ [byte_of_Z (z mod 256)])%list
  end.

(** The big-endian integer a byte string denotes. *)
Definition be_int (bs : list byte) : Z :=
  fold_left (fun acc b => acc * 256 + byte_to_Z b) bs 0.

(** [BigInt.prototype.toString(16)]: lowercase digits, no leading zero,
    a minus sign for negative values. *)
Definition toString16 (z : Z) : string :=
  match z with
  | Z0 => "0"
  | Zpos p => HexString.Raw.of_pos p ""
  | Zneg p => String "-" (HexString.Raw.of_pos p "")
  end.

(** The value of a run of lowercase digits read after [acc]. *)
Fixpoint parse_digits (s : string) (acc : N) : option N :=
  match s with
  | "" => Some acc
  | String c rest =>
      match hex_value c with
      | Some v => parse_digits rest (v + 16 * acc)
      | None => None
      end
  end.

(** [BigInt("0x...")]: at least one digit after the prefix. *)
Definition parse_bigint (s : string) : option Z :=
  match s with
  | String "0" (String "x" digits) =>
      match digits with
      | "" => None
      | _ => option_map Z.of_N (parse_digits digits 0)
      end
  | _ => None
  end.

(** The bytes of prefixed hex text: the two-character prefix, then an
    even run of lowercase digits. *)
Definition decode_prefixed (s : string) : option (list byte) :=
  match s with
  | String "0" (String "x" digits) => hexToBytes digits
  | _ => None
  end.

(** [String.prototype.substring(n)]: the text from index [n] on. *)
Fixpoint substring_from (n : nat) (s : string) : string :=
  match n, s with
  | O, _ => s
  | S n', String _ rest => substring_from n' rest
  | S _, "" => ""
  end.

End Hex.

(** ** JavaScript values, errors and the call trace *)

(** A [BytesLike] argument: a [Uint8Array] or a string. *)
Inductive BytesLike : Type :=
| Bytes (bs : list byte)
| Str (s : string).

(** A [Hex] argument of the engine: a [Uint8Array] or a string. *)
Inductive HexInput : Type :=
| HexBytes (bs : list byte)
| HexStr (s : string).

Module Signature.

(** Modelled from the spec: the [Signature] container of
    [crypto/signature.js] (section 3): a 32-byte [r], a 32-byte [s], both
    kept as prefixed lowercase hex text, and the recovery indicator in its
    legacy byte form, 27 or 28. *)
Record t : Type := mk { r : string; s : string; v : Z }.

(** Modelled from the spec: what [Signature.from] accepts, an object with
    the fields [r], [s] and [v], or an instance of the container. *)
Inductive like : Type :=
| object (r s : BytesLike) (v : Z)
| instance (sig : t).

(** Modelled from the spec: the parity accessor; the legacy byte is the
    parity offset by 0x1b. *)
Definition yParity (sig : t) : Z := v sig - 27.

End Signature.

(** The [value] field of an argument error. *)
Inductive value : Type :=
| VBytes (b : BytesLike)
| VString (s : string)
| VSignature (sig : Signature.like).

Inductive error : Type :=
| InvalidArgument (message name : string) (val : value)
| RangeError (message : string)
| EngineError (message : string).

Inductive result (A : Type) : Type :=
| OK (a : A)
| Err (e : error).

Arguments OK {A} a.
Arguments Err {A} e.

(** The operations of the engine, as they appear in a trace. *)
Inductive EngineCall : Type :=
| call_getPublicKey
| call_Point_fromHex
| call_Point_toRawBytes
| call_Point_toHex
| call_Point_add
| call_signSync
| call_Signature_fromHex
| call_Signature_fromCompact
| call_Signature_toDERRawBytes
| call_recoverPublicKey
| call_getSharedSecret.

(** A computation yields the engine calls it made, in order, and a value
    or the exception that ended it. *)
Definition M (A : Type) : Type := (list EngineCall * result A)%type.

Definition ret {A} (a : A) : M A := ([], OK a).

Definition lift {A} (r : result A) : M A := ([], r).

Definition engine {A} (c : EngineCall) (r : result A) : M A := ([c], r).

Definition bind {A B} (m : M A) (f : A -> M B) : M B :=
  match m with
  | (t, OK a) => let '(t', b) := f a in ((t ++ t')%list, b)
  | (t, Err e) => (t, Err e)
  end.

Definition trace {A} (m : M A) : list EngineCall := fst m.

Definition outcome {A} (m : M A) : result A := snd m.

Notation "x <- m ;; k" := (bind m (fun x => k))
  (at level 61, m at next level, right associativity).
Notation "' pat <- m ;; k" := (bind m (fun x => match x with pat => k end))
  (at level 61, pat pattern, m at next level, right associativity).

(** ** The helpers of utils/index.js *)

Module Utils.

(** Modelled from the spec: [assertArgument] of [utils/index.js]; it
    signals an argument error carrying the message, the parameter name
    and the value when the check fails (section 7). *)
Definition assertArgument (check : bool) (message name : string)
    (val : value) : result unit :=
  if check then OK tt else Err (InvalidArgument message name val).

(** Modelled from the spec: [getBytes] of [utils/index.js]; a byte
    parameter is a raw byte sequence or its lowercase hex text behind the
    two-character prefix (section 6); anything else is an argument
    error. *)
Definition getBytes (data : BytesLike) (name : string) : result (list byte) :=
  match data with
  | Bytes bs => OK bs
  | Str text =>
      match Hex.decode_prefixed text with
      | Some bs => OK bs
      | None => Err (InvalidArgument "invalid BytesLike value" name (VBytes data))
      end
  end.

(** Modelled from the spec: [getBytesCopy] of [utils/index.js]; the same
    bytes in a fresh array. *)
Definition getBytesCopy (data : BytesLike) : result (list byte) :=
  getBytes data "value".

(** Modelled from the spec: [dataLength] of [utils/index.js]; the number
    of bytes a byte parameter decodes to. *)
Definition dataLength (data : BytesLike) : result nat :=
  match getBytes data "value" with
  | OK bs => OK (List.length bs)
  | Err e => Err e
  end.

(** Modelled from the spec: [hexlify] of [utils/index.js]; byte-valued
    outputs are lowercase hex text behind the two-character prefix
    (section 6). *)
Definition hexlify (data : BytesLike) : result string :=
  match getBytes data "value" with
  | OK bs => OK ("0x" ++ Hex.bytesToHex bs)
  | Err e => Err e
  end.

(** Modelled from the spec: [concat] of [utils/index.js]; the hex text of
    the byte strings put end to end. *)
Fixpoint concat (datas : list BytesLike) : result string :=
  match datas with
  | [] => OK "0x"
  | d :: rest =>
      match hexlify d, concat rest with
      | OK h, OK t => OK (h ++ Hex.substring_from 2 t)
      | Err e, _ => Err e
      | OK _, Err e => Err e
      end
  end.

(** Modelled from the spec: [toHex] of [utils/index.js] at a width; the
    number is padded or truncated to exactly [width] bytes, big-endian
    (section 4.3). *)
Definition toHex (val : string) (width : nat) : result string :=
  match Hex.parse_bigint val with
  | Some z => OK ("0x" ++ Hex.bytesToHex (Hex.be_bytes width z))
  | None => Err (InvalidArgument "invalid BigNumberish string" "value" (VString val))
  end.

End Utils.

(** Modelled from the spec: [Signature.from] of [crypto/signature.js]; [r]
    and [s] must be 32 bytes each and the recovery indicator one of the two
    encodings of section 3, the parity 0 or 1 or the legacy byte 27 or 28.
    An instance is returned as it is. *)
Definition Signature_from (sig : Signature.like) : result Signature.t :=
  match sig with
  | Signature.instance sg => OK sg
  | Signature.object r s v =>
      match Utils.getBytes r "r", Utils.getBytes s "s" with
      | OK rb, OK sb =>
          if negb (Nat.eqb (List.length rb) 32) then
            Err (InvalidArgument "invalid r" "signature" (VSignature sig))
          else if negb (Nat.eqb (List.length sb) 32) then
            Err (InvalidArgument "invalid s" "signature" (VSignature sig))
          else if (v =? 0) || (v =? 1) then
            OK (Signature.mk ("0x" ++ Hex.bytesToHex rb) ("0x" ++ Hex.bytesToHex sb) (27 + v))
          else if (v =? 27) || (v =? 28) then
            OK (Signature.mk ("0x" ++ Hex.bytesToHex rb) ("0x" ++ Hex.bytesToHex sb) v)
          else
            Err (InvalidArgument "invalid v" "signature" (VSignature sig))
      | Err e, _ => Err e
      | OK _, Err e => Err e
      end
  end.

(** ** The curve engine *)

Module secp256k1.

(** The signature value of the engine: the two scalars as integers. *)
Record EngineSignature : Type := mkEngineSignature { sig_r : Z; sig_s : Z }.

(** The options [sign] passes to the engine. *)
Record SignOptions : Type := mkSignOptions { recovered : bool; canonical : bool }.

(** The operations [signing-key.js] uses of [@noble/secp256k1].  An
    operation that can throw returns a [result]; [recoverPublicKey] can
    also return no key; [Point.add] throws when the sum is no point of
    the curve.  [signSync] is given the options of the call and
    returns the pair it returns when [recovered] is set: the DER bytes and
    the recovery bit. *)
Record CurveEngine : Type := mkCurveEngine {
  Point : Type;
  getPublicKey : list byte -> bool -> result (list byte);
  Point_fromHex : HexInput -> result Point;
  Point_toRawBytes : Point -> bool -> list byte;
  Point_toHex : Point -> bool -> string;
  Point_add : Point -> Point -> result Point;
  signSync : list byte -> list byte -> SignOptions -> result (list byte * Z);
  Signature_fromHex : HexInput -> result EngineSignature;
  Signature_fromCompact : HexInput -> result EngineSignature;
  Signature_toDERRawBytes : EngineSignature -> list byte;
  recoverPublicKey : list byte -> HexInput -> Z -> result (option (list byte));
  getSharedSecret : list byte -> HexInput -> result (list byte)
}.

End secp256k1.

Module Curve.

(** The order of the curve (the constant [N] of the source, line 5). *)
Definition N : Z :=
  0xfffffffffffffffffffffffffffffffebaaedce6af48a03bbfd25e8cd0364141.

End Curve.

(** ** Typed arrays *)

(** [new Uint8Array(n)]: [n] zero bytes. *)
Definition Uint8Array_new (n : nat) : list byte := repeat x00 n.

(** [a[i] = b]: a store past the end does nothing. *)
Fixpoint Uint8Array_store (a : list byte) (i : nat) (b : byte) : list byte :=
  match a, i with
  | [], _ => []
  | _ :: rest, O => b :: rest
  | x :: rest, S i' => x :: Uint8Array_store rest i' b
  end.

(** [a.set(src, offset)]: [src] copied over [a] from [offset]; a
    [RangeError] when it does not fit. *)
Definition Uint8Array_set (a src : list byte) (offset : nat) : result (list byte) :=
  if Nat.leb (offset + List.length src) (List.length a) then
    OK (firstn offset a ++ src ++ skipn (offset + List.length src) a)%list
  else Err (RangeError "offset is out of bounds").

(** [!!x] for an optional boolean argument. *)
Definition truthy (x : option bool) : bool :=
  match x with Some b => b | None => false end.

(** An optional boolean handed to an engine parameter declared with the
    default [false]. *)
Definition or_default_false (x : option bool) : bool :=
  match x with Some b => b | None => false end.

(** ** SigningKey *)

Module SigningKey.

(** The instance: its private field, prefixed hex text. *)
Record t : Type := mk { privateKey : string }.

(** [constructor(privateKey)]. *)
Definition constructor (privateKey : BytesLike) : M t :=
  len <- lift (Utils.dataLength privateKey) ;;
  _ <- lift (Utils.assertArgument (Nat.eqb len 32) "invalid private key"
               "privateKey" (VString "[REDACTED]")) ;;
  h <- lift (Utils.hexlify privateKey) ;;
  ret (mk h).

Section WithEngine.

Variable E : secp256k1.CurveEngine.

(** [static computePublicKey(key, compressed)]. *)
Definition computePublicKey (key : BytesLike) (compressed : option bool)
  : M string :=
  bytes <- lift (Utils.getBytes key "key") ;;
  if Nat.eqb (List.length bytes) 32 then
    pubKey <- engine call_getPublicKey
                (secp256k1.getPublicKey E bytes (truthy compressed)) ;;
    lift (Utils.hexlify (Bytes pubKey))
  else
    bytes <- (if Nat.eqb (List.length bytes) 64 then
                let pub := Uint8Array_new 65 in
                let pub := Uint8Array_store pub 0 x04 in
                lift (Uint8Array_set pub bytes 1)
              else ret bytes) ;;
    point <- engine call_Point_fromHex (secp256k1.Point_fromHex E (HexBytes bytes)) ;;
    raw <- engine call_Point_toRawBytes
             (OK (secp256k1.Point_toRawBytes E point (or_default_false compressed))) ;;
    lift (Utils.hexlify (Bytes raw)).

(** [get publicKey()]. *)
Definition publicKey (this : t) : M string :=
  computePublicKey (Str (privateKey this)) None.

(** [get compressedPublicKey()]. *)
Definition compressedPublicKey (this : t) : M string :=
  computePublicKey (Str (privateKey this)) (Some true).

(** [sign(digest)]. *)
Definition sign (this : t) (digest : BytesLike) : M Signature.t :=
  len <- lift (Utils.dataLength digest) ;;
  _ <- lift (Utils.assertArgument (Nat.eqb len 32) "invalid digest length"
               "digest" (VBytes digest)) ;;
  d <- lift (Utils.getBytesCopy digest) ;;
  k <- lift (Utils.getBytesCopy (Str (privateKey this))) ;;
  '(sigDer, recid) <- engine call_signSync
                        (secp256k1.signSync E d k (secp256k1.mkSignOptions true true)) ;;
  sig <- engine call_Signature_fromHex
           (secp256k1.Signature_fromHex E (HexBytes sigDer)) ;;
  r <- lift (Utils.toHex ("0x" ++ Hex.toString16 (secp256k1.sig_r sig)) 32) ;;
  s <- lift (Utils.toHex ("0x" ++ Hex.toString16 (secp256k1.sig_s sig)) 32) ;;
  lift (Signature_from
          (Signature.object (Str r) (Str s)
             (if recid =? 0 then 0x1b else 0x1c))).

(** [computeShardSecret(other)]. *)
Definition computeShardSecret (this : t) (other : BytesLike) : M string :=
  pubKey <- computePublicKey other None ;;
  k <- lift (Utils.getBytesCopy (Str (privateKey this))) ;;
  secret <- engine call_getSharedSecret
              (secp256k1.getSharedSecret E k (HexStr pubKey)) ;;
  lift (Utils.hexlify (Bytes secret)).

(** [static recoverPublicKey(digest, signature)]; [None] stands for
    falling off the end of the function. *)
Definition recoverPublicKey (digest : BytesLike) (signature : Signature.like)
  : M (option string) :=
  len <- lift (Utils.dataLength digest) ;;
  _ <- lift (Utils.assertArgument (Nat.eqb len 32) "invalid digest length"
               "digest" (VBytes digest)) ;;
  sig <- lift (Signature_from signature) ;;
  rs <- lift (Utils.concat [Str (Signature.r sig); Str (Signature.s sig)]) ;;
  compact <- lift (Utils.getBytesCopy (Str rs)) ;;
  esig <- engine call_Signature_fromCompact
            (secp256k1.Signature_fromCompact E (HexBytes compact)) ;;
  der <- engine call_Signature_toDERRawBytes
           (OK (secp256k1.Signature_toDERRawBytes E esig)) ;;
  d <- lift (Utils.getBytesCopy digest) ;;
  pubKey <- engine call_recoverPublicKey
              (secp256k1.recoverPublicKey E d (HexBytes der)
                 (Signature.yParity sig)) ;;
  match pubKey with
  | Some pk =>
      h <- lift (Utils.hexlify (Bytes pk)) ;;
      ret (Some h)
  | None =>
      _ <- lift (Utils.assertArgument false "invalid signautre for digest"
                   "signature" (VSignature signature)) ;;
      ret None
  end.

(** [static addPoints(p0, p1, compressed)]. *)
Definition addPoints (p0 p1 : BytesLike) (compressed : option bool)
  : M string :=
  h0 <- computePublicKey p0 None ;;
  pub0 <- engine call_Point_fromHex
            (secp256k1.Point_fromHex E (HexStr (Hex.substring_from 2 h0))) ;;
  h1 <- computePublicKey p1 None ;;
  pub1 <- engine call_Point_fromHex
            (secp256k1.Point_fromHex E (HexStr (Hex.substring_from 2 h1))) ;;
  sum <- engine call_Point_add (secp256k1.Point_add E pub0 pub1) ;;
  hex <- engine call_Point_toHex
           (OK (secp256k1.Point_toHex E sum (truthy compressed))) ;;
  ret ("0x" ++ hex).

End WithEngine.

End SigningKey.


(** ** The contract of the engine

    What the specification (section 6) and the comments of the source
    expect of the engine.  Each property below is a hypothesis of the
    theorems that need it, never an assumption of the file. *)

Module Contract.

Section Contract.

Variable E : secp256k1.CurveEngine.

(** An uncompressed encoding is the byte 0x04 and 64 bytes; a compressed
    one has 33 bytes. *)
Definition encoding_lengths : Prop :=
  (forall P, exists xy,
      secp256k1.Point_toRawBytes E P false = x04 :: xy /\ List.length xy = 64%nat)
  /\ (forall P, List.length (secp256k1.Point_toRawBytes E P true) = 33%nat).

(** Decoding an encoding of a point gives the point back. *)
Definition point_codec : Prop :=
  forall P c,
    secp256k1.Point_fromHex E (HexBytes (secp256k1.Point_toRawBytes E P c)) = OK P.

(** Unprefixed hex text denotes its bytes. *)
Definition hex_text : Prop :=
  forall bs,
    secp256k1.Point_fromHex E (HexStr (Hex.bytesToHex bs))
    = secp256k1.Point_fromHex E (HexBytes bs).

(** A public key is an encoding of one point, whatever the form asked
    for. *)
Definition public_key_point : Prop :=
  forall k c pk,
    secp256k1.getPublicKey E k c = OK pk ->
    exists P, forall c',
      secp256k1.getPublicKey E k c' = OK (secp256k1.Point_toRawBytes E P c').

(** Addition of points is commutative: a sum the engine returns is the
    sum it returns in the other order. *)
Definition add_commutative : Prop :=
  forall P Q R,
    secp256k1.Point_add E P Q = OK R -> secp256k1.Point_add E Q P = OK R.

(** [signSync] with [recovered] returns a signature that decodes, with
    both scalars in the range of the curve order, and a recovery bit. *)
Definition sign_wellformed : Prop :=
  forall d k canon der recid,
    secp256k1.signSync E d k (secp256k1.mkSignOptions true canon) = OK (der, recid) ->
    (recid = 0 \/ recid = 1)
    /\ exists sig,
        secp256k1.Signature_fromHex E (HexBytes der) = OK sig
        /\ 0 < secp256k1.sig_r sig < Curve.N
        /\ 0 < secp256k1.sig_s sig < Curve.N.

(** [signSync] with [canonical] returns the low-s form. *)
Definition sign_canonical : Prop :=
  forall d k der recid sig,
    secp256k1.signSync E d k (secp256k1.mkSignOptions true true) = OK (der, recid) ->
    secp256k1.Signature_fromHex E (HexBytes der) = OK sig ->
    secp256k1.sig_s sig <= Curve.N / 2.

(** The compact form of a signature in range decodes to it. *)
Definition compact_codec : Prop :=
  forall sig,
    0 < secp256k1.sig_r sig < Curve.N ->
    0 < secp256k1.sig_s sig < Curve.N ->
    secp256k1.Signature_fromCompact E
      (HexBytes (Hex.be_bytes 32 (secp256k1.sig_r sig)
                 ++ Hex.be_bytes 32 (secp256k1.sig_s sig))%list)
    = OK sig.

(** Recovery from a signature the engine made, with its recovery bit,
    gives the uncompressed public key of the signer. *)
Definition sign_recover : Prop :=
  forall d k der recid sig,
    secp256k1.signSync E d k (secp256k1.mkSignOptions true true) = OK (der, recid) ->
    secp256k1.Signature_fromHex E (HexBytes der) = OK sig ->
    exists pk,
      secp256k1.recoverPublicKey E d
        (HexBytes (secp256k1.Signature_toDERRawBytes E sig)) recid = OK (Some pk)
      /\ secp256k1.getPublicKey E k false = OK pk.

(** The engine reads hex text without a prefix: [addPoints] strips the
    prefix from a key before it hands the text to the engine (lines 118
    and 119).  Text that begins with the prefix is refused. *)
Definition prefixed_text_refused : Prop :=
  forall k text, exists e,
    secp256k1.getSharedSecret E k (HexStr ("0x" ++ text)) = Err e.

(** A compressed encoding begins with the byte 0x02 or 0x03 (the comment
    of [compressedPublicKey], lines 37 to 39). *)
Definition compressed_prefix : Prop :=
  forall P, exists x,
    secp256k1.Point_toRawBytes E P true = x02 :: x
    \/ secp256k1.Point_toRawBytes E P true = x03 :: x.

(** The hex text of a point is the unprefixed hex text of its bytes. *)
Definition toHex_encoding : Prop :=
  forall P c,
    secp256k1.Point_toHex E P c = Hex.bytesToHex (secp256k1.Point_toRawBytes E P c).

End Contract.

End Contract.


(** ** A small engine

    An engine over a small group, with the interface and the contract
    above.  It is not secp256k1; it serves to run the operations of
    [SigningKey] on concrete inputs. *)

Module SmallEngine.

(** A point: one byte of abscissa and the parity of the ordinate. *)
Record point : Type := mkPoint { px : byte; podd : bool }.

Definition coordinate (b : byte) : list byte := (repeat x00 31 ++ [b])%list.

Definition encode (P : point) (compressed : bool) : list byte :=
  if compressed then
    (if podd P then x03 else x02) :: coordinate (px P)
  else
    (x04 :: coordinate (px P) ++ coordinate (if podd P then x01 else x00))%list.

Definition decode (bs : list byte) : result point :=
  match bs with
  | x04 :: rest =>
      if Nat.eqb (List.length rest) 64
      then OK (mkPoint (nth 31 rest x00) (Byte.eqb (nth 63 rest x00) x01))
      else Err (EngineError "Point.fromHex: bad length")
  | x02 :: rest =>
      if Nat.eqb (List.length rest) 32
      then OK (mkPoint (nth 31 rest x00) false)
      else Err (EngineError "Point.fromHex: bad length")
  | x03 :: rest =>
      if Nat.eqb (List.length rest) 32
      then OK (mkPoint (nth 31 rest x00) true)
      else Err (EngineError "Point.fromHex: bad length")
  | _ => Err (EngineError "Point.fromHex: bad prefix")
  end.

(** The bytes of a [Hex] argument; text is hex digits without a
    prefix. *)
Definition hex_arg (h : HexInput) : result (list byte) :=
  match h with
  | HexBytes bs => OK bs
  | HexStr s =>
      match Hex.hexToBytes s with
      | Some bs => OK bs
      | None => Err (EngineError "hexToBytes: invalid hex")
      end
  end.

Definition fromHex (h : HexInput) : result point :=
  match hex_arg h with
  | OK bs => decode bs
  | Err e => Err e
  end.

Definition valid_key (k : list byte) : bool :=
  Nat.eqb (List.length k) 32 && (0 <? Hex.be_int k) && (Hex.be_int k <? Curve.N).

Definition point_of_key (k : list byte) : point :=
  mkPoint (nth 31 k x00) (N.odd (Byte.to_N (nth 30 k x00))).

Definition getPublicKey (k : list byte) (compressed : bool) : result (list byte) :=
  if valid_key k then OK (encode (point_of_key k) compressed)
  else Err (EngineError "Expected private key: 0 < key < curve.n").

(** The sum of two points; a point and its opposite, the point of the
    same abscissa and the other parity, have none. *)
Definition add (P Q : point) : result point :=
  if Byte.eqb (px P) (px Q) && xorb (podd P) (podd Q) then
    Err (EngineError "Point.add: the sum is the point at infinity")
  else
    OK (mkPoint (Hex.byte_of_N ((Byte.to_N (px P) + Byte.to_N (px Q)) mod 256))
                (xorb (podd P) (podd Q))).

Definition valid_signature (sig : secp256k1.EngineSignature) : bool :=
  (0 <? secp256k1.sig_r sig) && (secp256k1.sig_r sig <? Curve.N)
  && (0 <? secp256k1.sig_s sig) && (secp256k1.sig_s sig <? Curve.N).

Definition compact_bytes (bs : list byte) : result secp256k1.EngineSignature :=
  if Nat.eqb (List.length bs) 64 then
    let sig := secp256k1.mkEngineSignature
                 (Hex.be_int (firstn 32 bs)) (Hex.be_int (skipn 32 bs)) in
    if valid_signature sig then OK sig
    else Err (EngineError "Invalid Signature: r and s must be in 0 < x < n")
  else Err (EngineError "Signature.fromCompact: expected 64 bytes").

Definition fromCompact (h : HexInput) : result secp256k1.EngineSignature :=
  match hex_arg h with
  | OK bs => compact_bytes bs
  | Err e => Err e
  end.

Definition toDERRawBytes (sig : secp256k1.EngineSignature) : list byte :=
  (x30 :: Hex.be_bytes 32 (secp256k1.sig_r sig)
       ++ Hex.be_bytes 32 (secp256k1.sig_s sig))%list.

Definition fromDER (h : HexInput) : result secp256k1.EngineSignature :=
  match hex_arg h with
  | OK (x30 :: rest) => compact_bytes rest
  | OK _ => Err (EngineError "Signature.fromHex: invalid signature")
  | Err e => Err e
  end.

(** The second scalar the engine gives a digest. *)
Definition digest_scalar (d : list byte) : Z :=
  1 + Hex.byte_to_Z (nth 31 d x00) / 2.

Definition signSync (d k : list byte) (opts : secp256k1.SignOptions)
  : result (list byte * Z) :=
  if Nat.eqb (List.length d) 32 && valid_key k then
    let P := point_of_key k in
    OK (toDERRawBytes
          (secp256k1.mkEngineSignature (1 + Hex.byte_to_Z (px P)) (digest_scalar d)),
        if podd P then 1 else 0)
  else Err (EngineError "signSync: invalid digest or key").

Definition recoverPublicKey (d : list byte) (sigHex : HexInput) (recovery : Z)
  : result (option (list byte)) :=
  match fromDER sigHex with
  | OK sig =>
      if negb ((recovery =? 0) || (recovery =? 1)) then
        Err (EngineError "Cannot recover: invalid recovery bit")
      else if (secp256k1.sig_s sig =? digest_scalar d)
              && (secp256k1.sig_r sig <=? 256) then
        OK (Some (encode (mkPoint (Hex.byte_of_Z (secp256k1.sig_r sig - 1))
                                  (recovery =? 1)) false))
      else OK None
  | Err e => Err e
  end.

Definition getSharedSecret (k : list byte) (pub : HexInput) : result (list byte) :=
  match fromHex pub with
  | OK P =>
      if valid_key k then
        OK (coordinate
              (Hex.byte_of_N ((Byte.to_N (nth 31 k x00) * Byte.to_N (px P)) mod 256)))
      else Err (EngineError "Expected private key: 0 < key < curve.n")
  | Err e => Err e
  end.

Definition engine : secp256k1.CurveEngine :=
  secp256k1.mkCurveEngine point getPublicKey fromHex encode
    (fun P c => Hex.bytesToHex (encode P c)) add signSync fromDER fromCompact
    toDERRawBytes recoverPublicKey getSharedSecret.

(** The 32-byte scalar whose last byte is [b]. *)
Definition scalar (b : byte) : list byte := coordinate b.

(** A private key, the instance made from it, and a digest. *)
Definition sample_key : BytesLike := Bytes (scalar x07).

Definition sample_signer : SigningKey.t :=
  SigningKey.mk ("0x" ++ Hex.bytesToHex (scalar x07)).

Definition sample_digest : BytesLike := Bytes (scalar x09).

(** The point of the sample key and its public key. *)
Definition sample_point : point := mkPoint x07 false.

Definition sample_public : string :=
  "0x" ++ Hex.bytesToHex (encode sample_point false).

(** The raw 64 bytes of the sample point. *)
Definition sample_raw : list byte := (coordinate x07 ++ coordinate x00)%list.

(** The signature the small engine gives the sample digest. *)
Definition sample_signature : Signature.t :=
  Signature.mk ("0x" ++ Hex.bytesToHex (Hex.be_bytes 32 8))
    ("0x" ++ Hex.bytesToHex (Hex.be_bytes 32 5)) 27.

(** Another party's compressed public key. *)
Definition sample_other : BytesLike := Bytes (encode (mkPoint x05 false) true).

(** The compressed public key of the opposite of the sample point. *)
Definition sample_opposite : BytesLike := Bytes (encode (mkPoint x07 true) true).

(** The instance of the key zero, which the small engine refuses. *)
Definition zero_signer : SigningKey.t :=
  SigningKey.mk ("0x" ++ Hex.bytesToHex (scalar x00)).

(** Text that is not a byte parameter. *)
Definition not_bytes : BytesLike := Str "zz".

(** A signature whose scalars are in range but which recovers no key for
    the sample digest, and one whose [r] is zero. *)
Definition unrelated_signature : Signature.like :=
  Signature.object (Bytes (Hex.be_bytes 32 1)) (Bytes (Hex.be_bytes 32 1)) 27.

Definition zero_r_signature : Signature.like :=
  Signature.object (Bytes (Hex.be_bytes 32 0)) (Bytes (Hex.be_bytes 32 1)) 27.

End SmallEngine.

(** ** The point of a public key *)

(** The [decode] of the round-trip property (section 8): the point the
    engine reads from the bytes of a public key text. *)
Definition decodePoint (E : secp256k1.CurveEngine) (publicKey : string)
  : result (secp256k1.Point E) :=
  match Utils.getBytes (Str publicKey) "key" with
  | OK bs => secp256k1.Point_fromHex E (HexBytes bs)
  | Err e => Err e
  end.


(** * Properties *)

(** ** Hexadecimal text and big-endian integers *)

Module HexFacts.

Lemma byte_of_to_N (b : byte) : Hex.byte_of_N (Byte.to_N b) = b.
Proof. unfold Hex.byte_of_N. now rewrite Byte.of_to_N. Qed.

Lemma byte_to_of_N (n : N) : (n < 256)%N -> Byte.to_N (Hex.byte_of_N n) = n.
Proof.
  intros Hn. unfold Hex.byte_of_N.
  pose proof (Byte.to_of_N_option_map n) as H.
  destruct (Byte.of_N n) as [b|]; simpl in H.
  - destruct (N.leb n 255); congruence.
  - destruct (N.leb n 255) eqn:Hle; [discriminate|].
    apply N.leb_gt in Hle. lia.
Qed.

Lemma byte_of_to_Z (b : byte) : Hex.byte_of_Z (Hex.byte_to_Z b) = b.
Proof.
  unfold Hex.byte_of_Z, Hex.byte_to_Z. rewrite N2Z.id. apply byte_of_to_N.
Qed.

Lemma byte_to_of_Z (z : Z) : 0 <= z < 256 -> Hex.byte_to_Z (Hex.byte_of_Z z) = z.
Proof.
  intros Hz. unfold Hex.byte_of_Z, Hex.byte_to_Z.
  rewrite byte_to_of_N by lia. lia.
Qed.

Lemma byte_to_Z_range (b : byte) : 0 <= Hex.byte_to_Z b < 256.
Proof.
  unfold Hex.byte_to_Z. pose proof (Byte.to_N_bounded b). lia.
Qed.

(** One byte survives its two digits. *)
Lemma byte_digits (b : byte) :
  Hex.hex_value (Hex.nibble_char (Byte.to_N b / 16)) = Some (Byte.to_N b / 16)%N
  /\ Hex.hex_value (Hex.nibble_char (Byte.to_N b mod 16)) = Some (Byte.to_N b mod 16)%N.
Proof. destruct b; split; reflexivity. Qed.

Lemma hexToBytes_bytesToHex (bs : list byte) :
  Hex.hexToBytes (Hex.bytesToHex bs) = Some bs.
Proof.
  induction bs as [|b rest IH]; [reflexivity|].
  cbn [Hex.bytesToHex Hex.hexToBytes].
  destruct (byte_digits b) as [Hhi Hlo]. rewrite Hhi, Hlo, IH.
  f_equal. f_equal.
  rewrite <- (byte_of_to_N b) at 3. f_equal.
  pose proof (N.div_mod (Byte.to_N b) 16). lia.
Qed.

Lemma append_empty_r (s : string) : s ++ "" = s.
Proof. induction s as [|c s IH]; cbn; [reflexivity|now rewrite IH]. Qed.

Lemma bytesToHex_app (a b : list byte) :
  Hex.bytesToHex (a ++ b) = Hex.bytesToHex a ++ Hex.bytesToHex b.
Proof.
  induction a as [|x a IH]; [reflexivity|].
  cbn [Hex.bytesToHex List.app String.append]. now rewrite IH.
Qed.

Lemma be_bytes_length (w : nat) (z : Z) : List.length (Hex.be_bytes w z) = w.
Proof.
  revert z. induction w as [|w IH]; intros z; [reflexivity|].
  cbn [Hex.be_bytes]. rewrite List.length_app, IH. simpl. lia.
Qed.

Lemma be_int_snoc (bs : list byte) (b : byte) :
  Hex.be_int (bs ++ [b]) = Hex.be_int bs * 256 + Hex.byte_to_Z b.
Proof. unfold Hex.be_int. now rewrite fold_left_app. Qed.

Lemma be_int_be_bytes (w : nat) (z : Z) :
  Hex.be_int (Hex.be_bytes w z) = z mod 256 ^ Z.of_nat w.
Proof.
  revert z. induction w as [|w IH]; intros z.
  - cbn. now rewrite Z.mod_1_r.
  - cbn [Hex.be_bytes]. rewrite be_int_snoc, IH.
    rewrite byte_to_of_Z by (apply Z.mod_pos_bound; lia).
    rewrite Nat2Z.inj_succ, Z.pow_succ_r by lia.
    rewrite (Z.rem_mul_r z 256 (256 ^ Z.of_nat w)) by lia. lia.
Qed.

(** A value below [256^w] survives its [w] big-endian bytes. *)
Lemma be_int_be_bytes_small (w : nat) (z : Z) :
  0 <= z < 256 ^ Z.of_nat w -> Hex.be_int (Hex.be_bytes w z) = z.
Proof. intros Hz. rewrite be_int_be_bytes. now apply Z.mod_small. Qed.

Lemma parse_digits_of_pos (p : positive) (rest : string) (acc : N) :
  Hex.parse_digits (HexString.Raw.of_pos p rest) acc
  = Hex.parse_digits rest
      match acc with
      | N0 => Npos p
      | Npos v => Npos (HexString.pos_hex_app v p)
      end.
Proof.
  revert p rest acc. fix IH 1. intros p rest acc.
  do 4 try destruct p as [p|p|]; destruct acc; try reflexivity;
    cbn; rewrite IH; reflexivity.
Qed.

Lemma of_pos_length (p : positive) (rest : string) :
  (String.length rest < String.length (HexString.Raw.of_pos p rest))%nat.
Proof.
  revert p rest. fix IH 1. intros p rest.
  do 4 try destruct p as [p|p|]; cbn [HexString.Raw.of_pos String.length];
    try lia;
    (eapply Nat.lt_trans; [|apply IH]; cbn [String.length]; lia).
Qed.

Lemma of_pos_nonempty (p : positive) (rest : string) :
  HexString.Raw.of_pos p rest <> "".
Proof.
  intros Hempty. pose proof (of_pos_length p rest) as H.
  rewrite Hempty in H. cbn in H. lia.
Qed.

End HexFacts.

(** ** The helpers *)

Module UtilsFacts.

Lemma getBytes_name (data : BytesLike) (n n' : string) (bs : list byte) :
  Utils.getBytes data n = OK bs -> Utils.getBytes data n' = OK bs.
Proof.
  destruct data as [b|text]; cbn [Utils.getBytes]; [trivial|].
  destruct (Hex.decode_prefixed text); [trivial|discriminate].
Qed.

Lemma getBytes_hex (bs : list byte) (n : string) :
  Utils.getBytes (Str ("0x" ++ Hex.bytesToHex bs)) n = OK bs.
Proof. cbn. now rewrite HexFacts.hexToBytes_bytesToHex. Qed.

Lemma hexlify_Bytes (bs : list byte) :
  Utils.hexlify (Bytes bs) = OK ("0x" ++ Hex.bytesToHex bs).
Proof. reflexivity. Qed.

Lemma hexlify_getBytes (data : BytesLike) (n : string) (bs : list byte) :
  Utils.getBytes data n = OK bs ->
  Utils.hexlify data = OK ("0x" ++ Hex.bytesToHex bs).
Proof.
  intros H. unfold Utils.hexlify. now rewrite (getBytes_name _ _ "value" _ H).
Qed.

Lemma dataLength_getBytes (data : BytesLike) (n : string) (bs : list byte) :
  Utils.getBytes data n = OK bs -> Utils.dataLength data = OK (List.length bs).
Proof.
  intros H. unfold Utils.dataLength. now rewrite (getBytes_name _ _ "value" _ H).
Qed.

Lemma dataLength_inv (data : BytesLike) (len : nat) :
  Utils.dataLength data = OK len ->
  exists bs, (forall n, Utils.getBytes data n = OK bs) /\ List.length bs = len.
Proof.
  unfold Utils.dataLength. destruct (Utils.getBytes data "value") as [bs|e] eqn:H;
    [|discriminate].
  intros [= <-]. exists bs. split; [|reflexivity].
  intros n. exact (getBytes_name _ _ n _ H).
Qed.

(** The hex text of a number read back by [toHex]. *)
Lemma parse_bigint_toString16 (z z' : Z) :
  Hex.parse_bigint ("0x" ++ Hex.toString16 z) = Some z' <-> 0 <= z /\ z' = z.
Proof.
  destruct z as [|p|p]; cbn [Hex.toString16].
  - cbn. split; [intros [= <-]; lia | intros [_ ->]; reflexivity].
  - cbn [String.append Hex.parse_bigint].
    destruct (HexString.Raw.of_pos p "") eqn:Hp;
      [now apply HexFacts.of_pos_nonempty in Hp|].
    rewrite <- Hp, HexFacts.parse_digits_of_pos. cbn.
    split; [intros [= <-]; lia | intros [_ ->]; reflexivity].
  - cbn. split; [discriminate | lia].
Qed.

Lemma toHex_toString16 (z : Z) (w : nat) :
  0 <= z ->
  Utils.toHex ("0x" ++ Hex.toString16 z) w
  = OK ("0x" ++ Hex.bytesToHex (Hex.be_bytes w z)).
Proof.
  intros Hz. unfold Utils.toHex.
  now rewrite (proj2 (parse_bigint_toString16 z z) (conj Hz eq_refl)).
Qed.

Lemma toHex_toString16_inv (z : Z) (w : nat) (h : string) :
  Utils.toHex ("0x" ++ Hex.toString16 z) w = OK h ->
  0 <= z /\ h = "0x" ++ Hex.bytesToHex (Hex.be_bytes w z).
Proof.
  unfold Utils.toHex.
  destruct (Hex.parse_bigint ("0x" ++ Hex.toString16 z)) as [z'|] eqn:Hp;
    [|discriminate].
  apply parse_bigint_toString16 in Hp as [Hz ->]. now intros [= <-].
Qed.

Lemma concat_pair (a b : list byte) :
  Utils.concat [Str ("0x" ++ Hex.bytesToHex a); Str ("0x" ++ Hex.bytesToHex b)]
  = OK ("0x" ++ Hex.bytesToHex (a ++ b)).
Proof.
  cbn [Utils.concat]. unfold Utils.hexlify. rewrite !getBytes_hex.
  rewrite HexFacts.bytesToHex_app. cbn. now rewrite HexFacts.append_empty_r.
Qed.

End UtilsFacts.

(** ** Computations *)

Lemma OK_inj {A} (a b : A) : OK a = OK b -> a = b.
Proof. now intros [= ->]. Qed.

Lemma outcome_bind {A B} (m : M A) (f : A -> M B) :
  outcome (bind m f)
  = match outcome m with
    | OK a => outcome (f a)
    | Err e => Err e
    end.
Proof. destruct m as [t [a|e]]; cbn; [|reflexivity]. now destruct (f a). Qed.

Lemma trace_bind {A B} (m : M A) (f : A -> M B) :
  trace (bind m f)
  = (trace m ++ match outcome m with
                | OK a => trace (f a)
                | Err _ => []
                end)%list.
Proof.
  destruct m as [t [a|e]]; cbn; [|now rewrite app_nil_r]. now destruct (f a).
Qed.

Lemma outcome_bind_OK {A B} (m : M A) (f : A -> M B) (b : B) :
  outcome (bind m f) = OK b ->
  exists a, outcome m = OK a /\ outcome (f a) = OK b.
Proof.
  rewrite outcome_bind. destruct (outcome m) as [a|e]; [|discriminate].
  intros H. now exists a.
Qed.

Tactic Notation "bind_inv" hyp(H) "as" ident(a) ident(Ha) :=
  apply outcome_bind_OK in H as (a & Ha & H);
  cbn [outcome lift engine ret snd] in Ha.

(** ** The small engine meets the contract *)

Module SmallEngineFacts.

Lemma firstn_skipn_app {A} (a b : list A) (n : nat) :
  List.length a = n -> firstn n (a ++ b) = a /\ skipn n (a ++ b) = b.
Proof.
  revert n. induction a as [|x a IH]; intros n Hn; cbn in Hn; subst n.
  - now split.
  - cbn. destruct (IH (List.length a) eq_refl) as [-> ->]. now split.
Qed.

Lemma order_fits : Curve.N < 256 ^ Z.of_nat 32.
Proof. vm_compute. reflexivity. Qed.

Lemma compact_bytes_be (r s : Z) :
  0 < r < Curve.N -> 0 < s < Curve.N ->
  SmallEngine.compact_bytes (Hex.be_bytes 32 r ++ Hex.be_bytes 32 s)
  = OK (secp256k1.mkEngineSignature r s).
Proof.
  intros Hr Hs. pose proof order_fits as Hfit.
  unfold SmallEngine.compact_bytes.
  rewrite List.length_app, !HexFacts.be_bytes_length. cbn [Nat.add Nat.eqb].
  destruct (firstn_skipn_app (Hex.be_bytes 32 r) (Hex.be_bytes 32 s) 32
              (HexFacts.be_bytes_length 32 r)) as [-> ->].
  rewrite !HexFacts.be_int_be_bytes_small by lia.
  unfold SmallEngine.valid_signature. cbn [secp256k1.sig_r secp256k1.sig_s].
  destruct Hr as [Hr0 Hr1], Hs as [Hs0 Hs1].
  apply Z.ltb_lt in Hr0, Hr1, Hs0, Hs1. now rewrite Hr0, Hr1, Hs0, Hs1.
Qed.

Lemma encoding_lengths : Contract.encoding_lengths SmallEngine.engine.
Proof.
  split; intros [x o]; cbn.
  - eexists. split; reflexivity.
  - now destruct o.
Qed.

Lemma point_codec : Contract.point_codec SmallEngine.engine.
Proof. intros [x o] c. destruct c, o; reflexivity. Qed.

Lemma hex_text : Contract.hex_text SmallEngine.engine.
Proof.
  intros bs. cbn [secp256k1.Point_fromHex SmallEngine.engine].
  unfold SmallEngine.fromHex, SmallEngine.hex_arg.
  now rewrite HexFacts.hexToBytes_bytesToHex.
Qed.

Lemma public_key_point : Contract.public_key_point SmallEngine.engine.
Proof.
  intros k c pk. cbn. unfold SmallEngine.getPublicKey.
  destruct (SmallEngine.valid_key k); [|discriminate].
  intros _. now exists (SmallEngine.point_of_key k).
Qed.

Lemma add_commutative : Contract.add_commutative SmallEngine.engine.
Proof.
  intros P Q R. cbn [secp256k1.Point_add SmallEngine.engine].
  unfold SmallEngine.add.
  rewrite (xorb_comm (SmallEngine.podd Q)), (N.add_comm (Byte.to_N (SmallEngine.px Q))).
  replace (Byte.eqb (SmallEngine.px Q) (SmallEngine.px P))
    with (Byte.eqb (SmallEngine.px P) (SmallEngine.px Q)); [trivial|].
  destruct (Byte.eqb (SmallEngine.px P) (SmallEngine.px Q)) eqn:Heq.
  - apply Byte.byte_dec_bl in Heq. rewrite Heq. symmetry.
    apply Byte.byte_dec_lb. reflexivity.
  - destruct (Byte.eqb (SmallEngine.px Q) (SmallEngine.px P)) eqn:Heq'; [|reflexivity].
    apply Byte.byte_dec_bl in Heq'. rewrite Heq' in Heq.
    now rewrite (Byte.byte_dec_lb eq_refl) in Heq.
Qed.

(** The signature the small engine makes. *)
Lemma signSync_inv (d k : list byte) (opts : secp256k1.SignOptions)
    (der : list byte) (recid : Z) :
  SmallEngine.signSync d k opts = OK (der, recid) ->
  let P := SmallEngine.point_of_key k in
  let sig := secp256k1.mkEngineSignature
               (1 + Hex.byte_to_Z (SmallEngine.px P)) (SmallEngine.digest_scalar d) in
  SmallEngine.valid_key k = true
  /\ der = SmallEngine.toDERRawBytes sig
  /\ recid = (if SmallEngine.podd P then 1 else 0)
  /\ 0 < secp256k1.sig_r sig <= 256
  /\ 0 < secp256k1.sig_s sig <= 128
  /\ SmallEngine.fromDER (HexBytes der) = OK sig.
Proof.
  unfold SmallEngine.signSync.
  destruct (Nat.eqb (List.length d) 32); [|discriminate].
  destruct (SmallEngine.valid_key k); [|discriminate].
  cbn [andb]. intros H. apply OK_inj in H.
  apply (f_equal fst) in H as Hder. apply (f_equal snd) in H as Hrec.
  cbn [fst snd] in Hder, Hrec. subst der recid. cbv zeta.
  set (P := SmallEngine.point_of_key k).
  pose proof (HexFacts.byte_to_Z_range (SmallEngine.px P)) as Hx.
  pose proof (HexFacts.byte_to_Z_range (nth 31 d x00)) as Hy.
  assert (Hs : 0 < SmallEngine.digest_scalar d <= 128).
  { unfold SmallEngine.digest_scalar.
    pose proof (Z.div_pos (Hex.byte_to_Z (nth 31 d x00)) 2).
    assert (Hex.byte_to_Z (nth 31 d x00) / 2 < 128)
      by (apply Z.div_lt_upper_bound; lia).
    lia. }
  cbn [secp256k1.sig_r secp256k1.sig_s].
  repeat split; try lia.
  unfold SmallEngine.fromDER, SmallEngine.toDERRawBytes. cbn [SmallEngine.hex_arg].
  cbn [secp256k1.sig_r secp256k1.sig_s].
  apply compact_bytes_be; unfold Curve.N; lia.
Qed.

Lemma sign_wellformed : Contract.sign_wellformed SmallEngine.engine.
Proof.
  intros d k canon der recid H.
  cbn [secp256k1.signSync SmallEngine.engine] in H.
  destruct (signSync_inv _ _ _ _ _ H) as (_ & _ & Hrec & Hr & Hs & Hdec).
  split.
  - subst recid. destruct (SmallEngine.podd _); auto.
  - eexists. split; [exact Hdec|].
    cbn [secp256k1.sig_r secp256k1.sig_s] in *. unfold Curve.N. lia.
Qed.

Lemma sign_canonical : Contract.sign_canonical SmallEngine.engine.
Proof.
  intros d k der recid sig H Hsig.
  cbn [secp256k1.signSync secp256k1.Signature_fromHex SmallEngine.engine] in H, Hsig.
  destruct (signSync_inv _ _ _ _ _ H) as (_ & _ & _ & _ & Hs & Hdec).
  rewrite Hdec in Hsig. apply OK_inj in Hsig. subst sig.
  cbn [secp256k1.sig_s] in *.
  assert (128 <= Curve.N / 2) by (vm_compute; discriminate). lia.
Qed.

Lemma compact_codec : Contract.compact_codec SmallEngine.engine.
Proof.
  intros [r s] Hr Hs.
  cbn [secp256k1.Signature_fromCompact secp256k1.sig_r secp256k1.sig_s
       SmallEngine.engine] in *.
  unfold SmallEngine.fromCompact. cbn [SmallEngine.hex_arg].
  now apply compact_bytes_be.
Qed.

Lemma sign_recover : Contract.sign_recover SmallEngine.engine.
Proof.
  intros d k der recid sig H Hsig.
  cbn [secp256k1.signSync secp256k1.Signature_fromHex SmallEngine.engine] in H, Hsig.
  destruct (signSync_inv _ _ _ _ _ H) as (Hk & Hder & Hrec & Hr & Hs & Hdec).
  rewrite Hdec in Hsig. apply OK_inj in Hsig. subst sig.
  exists (SmallEngine.encode (SmallEngine.point_of_key k) false).
  cbn [secp256k1.recoverPublicKey secp256k1.getPublicKey
       secp256k1.Signature_toDERRawBytes SmallEngine.engine].
  unfold SmallEngine.getPublicKey. rewrite Hk. split; [|reflexivity].
  unfold SmallEngine.recoverPublicKey. rewrite <- Hder, Hdec.
  cbn [secp256k1.sig_r secp256k1.sig_s] in *.
  assert (Hbit : (recid =? 0) || (recid =? 1) = true)
    by (subst recid; destruct (SmallEngine.podd _); reflexivity).
  rewrite Hbit, Z.eqb_refl. cbn [negb andb].
  destruct (1 + Hex.byte_to_Z (SmallEngine.px (SmallEngine.point_of_key k)) <=? 256)
    eqn:Hle; [|apply Z.leb_gt in Hle; lia].
  do 3 f_equal.
  replace (1 + Hex.byte_to_Z (SmallEngine.px (SmallEngine.point_of_key k)) - 1)
    with (Hex.byte_to_Z (SmallEngine.px (SmallEngine.point_of_key k))) by lia.
  rewrite HexFacts.byte_of_to_Z. subst recid.
  now destruct (SmallEngine.point_of_key k) as [x []].
Qed.

Lemma prefixed_text_refused : Contract.prefixed_text_refused SmallEngine.engine.
Proof.
  intros k text. cbn [secp256k1.getSharedSecret SmallEngine.engine].
  unfold SmallEngine.getSharedSecret, SmallEngine.fromHex, SmallEngine.hex_arg.
  cbn [String.append Hex.hexToBytes].
  replace (Hex.hex_value "x") with (@None N) by reflexivity.
  destruct (Hex.hex_value "0"); eexists; reflexivity.
Qed.

Lemma compressed_prefix : Contract.compressed_prefix SmallEngine.engine.
Proof.
  intros [x o]. cbn [secp256k1.Point_toRawBytes SmallEngine.engine].
  unfold SmallEngine.encode. cbn [SmallEngine.podd SmallEngine.px].
  exists (SmallEngine.coordinate x). destruct o; auto.
Qed.

Lemma toHex_encoding : Contract.toHex_encoding SmallEngine.engine.
Proof. intros P c. reflexivity. Qed.

End SmallEngineFacts.

(** ** Construction *)

Section Construction.

(** C7. An input that decodes to a length other than 32 bytes is refused
    with an argument error naming [privateKey] and carrying the text
    [[REDACTED]] in place of the key; an input that decodes to 32 bytes is
    accepted and stored as the prefixed hex text of its bytes, which reads
    back as the same bytes.  No engine operation is involved. *)
Theorem constructor_length (privateKey : BytesLike) (len : nat) :
  Utils.dataLength privateKey = OK len ->
  (len <> 32%nat ->
   SigningKey.constructor privateKey
   = ([], Err (InvalidArgument "invalid private key" "privateKey"
                 (VString "[REDACTED]"))))
  /\ (len = 32%nat ->
      exists bs,
        Utils.getBytes privateKey "value" = OK bs
        /\ SigningKey.constructor privateKey
           = ([], OK (SigningKey.mk ("0x" ++ Hex.bytesToHex bs)))
        /\ Utils.getBytes (Str ("0x" ++ Hex.bytesToHex bs)) "value" = OK bs).
Proof.
  intros Hlen.
  destruct (UtilsFacts.dataLength_inv _ _ Hlen) as (bs & Hbs & Hl).
  unfold SigningKey.constructor. rewrite Hlen. split.
  - intros Hne. apply Nat.eqb_neq in Hne. cbn. now rewrite Hne.
  - intros ->. exists bs. split; [apply Hbs|]. split.
    + cbn. now rewrite (UtilsFacts.hexlify_getBytes _ _ _ (Hbs "value")).
    + apply UtilsFacts.getBytes_hex.
Qed.

(** A 31-byte key is refused, a 32-byte key is stored. *)
Lemma constructor_length_witness :
  SigningKey.constructor (Bytes (repeat x00 31))
  = ([], Err (InvalidArgument "invalid private key" "privateKey"
                (VString "[REDACTED]")))
  /\ exists bs,
      Utils.getBytes (Bytes (SmallEngine.scalar x07)) "value" = OK bs
      /\ SigningKey.constructor (Bytes (SmallEngine.scalar x07))
         = ([], OK (SigningKey.mk ("0x" ++ Hex.bytesToHex bs)))
      /\ Utils.getBytes (Str ("0x" ++ Hex.bytesToHex bs)) "value" = OK bs.
Proof.
  split.
  - apply (proj1 (constructor_length (Bytes (repeat x00 31)) 31 eq_refl)).
    discriminate.
  - apply (proj2 (constructor_length (Bytes (SmallEngine.scalar x07)) 32 eq_refl)).
    reflexivity.
Defined.

End Construction.

(** ** Signing *)

Section Signing.

Variable E : secp256k1.CurveEngine.

(** C8. A digest that decodes to a length other than 32 bytes is refused
    with an argument error naming [digest], and the trace of engine calls
    is empty: the check comes before any curve operation. *)
Theorem sign_digest_length (this : SigningKey.t) (digest : BytesLike) (len : nat) :
  Utils.dataLength digest = OK len ->
  len <> 32%nat ->
  SigningKey.sign E this digest
  = ([], Err (InvalidArgument "invalid digest length" "digest" (VBytes digest))).
Proof.
  intros Hlen Hne. apply Nat.eqb_neq in Hne.
  unfold SigningKey.sign. rewrite Hlen. cbn. now rewrite Hne.
Qed.

Lemma Signature_from_hex (rb sb : list byte) (v : Z) :
  List.length rb = 32%nat -> List.length sb = 32%nat -> v = 27 \/ v = 28 ->
  Signature_from
    (Signature.object (Str ("0x" ++ Hex.bytesToHex rb))
       (Str ("0x" ++ Hex.bytesToHex sb)) v)
  = OK (Signature.mk ("0x" ++ Hex.bytesToHex rb) ("0x" ++ Hex.bytesToHex sb) v).
Proof.
  intros Hr Hs Hv. unfold Signature_from.
  rewrite !UtilsFacts.getBytes_hex, Hr, Hs. cbn [Nat.eqb negb].
  destruct Hv as [-> | ->]; reflexivity.
Qed.

(** What a signature returned by [sign] is made of. *)
Lemma sign_inv (this : SigningKey.t) (digest : BytesLike) (sig : Signature.t) :
  outcome (SigningKey.sign E this digest) = OK sig ->
  exists d k der recid esig,
    Utils.getBytes digest "value" = OK d
    /\ List.length d = 32%nat
    /\ Utils.getBytes (Str (SigningKey.privateKey this)) "value" = OK k
    /\ secp256k1.signSync E d k (secp256k1.mkSignOptions true true) = OK (der, recid)
    /\ secp256k1.Signature_fromHex E (HexBytes der) = OK esig
    /\ 0 <= secp256k1.sig_r esig
    /\ 0 <= secp256k1.sig_s esig
    /\ sig = Signature.mk
               ("0x" ++ Hex.bytesToHex (Hex.be_bytes 32 (secp256k1.sig_r esig)))
               ("0x" ++ Hex.bytesToHex (Hex.be_bytes 32 (secp256k1.sig_s esig)))
               (if recid =? 0 then 27 else 28).
Proof.
  unfold SigningKey.sign. intros H.
  bind_inv H as len Hlen. bind_inv H as u Hcheck.
  bind_inv H as d Hd. bind_inv H as k Hk.
  bind_inv H as signed Hsigned. destruct signed as [der recid].
  bind_inv H as esig Hesig. bind_inv H as r Hr. bind_inv H as s Hs.
  cbn [outcome lift snd] in H.
  destruct (UtilsFacts.dataLength_inv _ _ Hlen) as (d' & Hd' & Hlen').
  unfold Utils.assertArgument in Hcheck.
  destruct (Nat.eqb len 32) eqn:Hlen32; [|discriminate].
  apply Nat.eqb_eq in Hlen32. subst len.
  unfold Utils.getBytesCopy in Hd, Hk. rewrite (Hd' "value") in Hd.
  apply OK_inj in Hd. subst d'.
  apply UtilsFacts.toHex_toString16_inv in Hr as [Hr ->].
  apply UtilsFacts.toHex_toString16_inv in Hs as [Hs ->].
  rewrite Signature_from_hex in H;
    [| apply HexFacts.be_bytes_length | apply HexFacts.be_bytes_length
     | destruct (recid =? 0); auto ].
  apply OK_inj in H. subst sig.
  exists d, k, der, recid, esig. repeat split; try assumption. apply Hd'.
Qed.

(** [sign] returns once the engine has signed and the signature decodes
    to scalars that are not negative. *)
Lemma sign_run (this : SigningKey.t) (digest : BytesLike) (d k der : list byte)
    (recid : Z) (esig : secp256k1.EngineSignature) :
  Utils.getBytes digest "value" = OK d ->
  List.length d = 32%nat ->
  Utils.getBytes (Str (SigningKey.privateKey this)) "value" = OK k ->
  secp256k1.signSync E d k (secp256k1.mkSignOptions true true) = OK (der, recid) ->
  secp256k1.Signature_fromHex E (HexBytes der) = OK esig ->
  0 <= secp256k1.sig_r esig ->
  0 <= secp256k1.sig_s esig ->
  SigningKey.sign E this digest
  = ([call_signSync; call_Signature_fromHex],
     OK (Signature.mk
           ("0x" ++ Hex.bytesToHex (Hex.be_bytes 32 (secp256k1.sig_r esig)))
           ("0x" ++ Hex.bytesToHex (Hex.be_bytes 32 (secp256k1.sig_s esig)))
           (if recid =? 0 then 27 else 28))).
Proof.
  intros Hd Hlen Hk Hsigned Hesig Hr Hs. unfold SigningKey.sign.
  rewrite (UtilsFacts.dataLength_getBytes _ _ _ Hd), Hlen.
  unfold Utils.getBytesCopy. rewrite Hd, Hk.
  cbn [lift bind app Nat.eqb Utils.assertArgument]. rewrite Hsigned.
  cbn [engine bind app]. rewrite Hesig.
  rewrite (UtilsFacts.toHex_toString16 _ 32 Hr), (UtilsFacts.toHex_toString16 _ 32 Hs).
  cbn [engine lift bind app].
  rewrite Signature_from_hex;
    [ reflexivity | apply HexFacts.be_bytes_length | apply HexFacts.be_bytes_length
    | destruct (recid =? 0); auto ].
Qed.

(** C2. The signature returned by [sign] carries the recovery byte 27
    when the recovery bit of the engine is 0 and 28 when it is 1; it is
    never the bare bit 0 or 1. *)
Theorem sign_recovery_byte (this : SigningKey.t) (digest : BytesLike)
    (sig : Signature.t) :
  outcome (SigningKey.sign E this digest) = OK sig ->
  exists d k der recid,
    Utils.getBytes digest "value" = OK d
    /\ Utils.getBytes (Str (SigningKey.privateKey this)) "value" = OK k
    /\ secp256k1.signSync E d k (secp256k1.mkSignOptions true true) = OK (der, recid)
    /\ (recid = 0 -> Signature.v sig = 27)
    /\ (recid = 1 -> Signature.v sig = 28)
    /\ (Signature.v sig = 27 \/ Signature.v sig = 28)
    /\ Signature.v sig <> 0 /\ Signature.v sig <> 1.
Proof.
  intros H.
  destruct (sign_inv _ _ _ H)
    as (d & k & der & recid & esig & Hd & _ & Hk & Hsign & _ & _ & _ & ->).
  exists d, k, der, recid. cbn [Signature.v].
  repeat split; try assumption.
  - now intros ->.
  - now intros ->.
  - destruct (recid =? 0); auto.
  - destruct (recid =? 0); discriminate.
  - destruct (recid =? 0); discriminate.
Qed.

(** C3. Under the engine's contract for [canonical], the [s] of a
    signature returned by [sign] is 32 bytes that read, big-endian, as an
    integer of at most half the curve order. *)
Theorem sign_low_s (this : SigningKey.t) (digest : BytesLike) (sig : Signature.t) :
  Contract.sign_canonical E ->
  outcome (SigningKey.sign E this digest) = OK sig ->
  exists sb,
    Utils.getBytes (Str (Signature.s sig)) "s" = OK sb
    /\ List.length sb = 32%nat
    /\ Hex.be_int sb <= Curve.N / 2.
Proof.
  intros Hcanon H.
  destruct (sign_inv _ _ _ H)
    as (d & k & der & recid & esig & _ & _ & _ & Hsign & Hesig & _ & Hs & ->).
  exists (Hex.be_bytes 32 (secp256k1.sig_s esig)). cbn [Signature.s].
  split; [apply UtilsFacts.getBytes_hex|].
  split; [apply HexFacts.be_bytes_length|].
  pose proof (Hcanon _ _ _ _ _ Hsign Hesig) as Hlow.
  assert (Hbound : Curve.N / 2 < 256 ^ Z.of_nat 32) by (vm_compute; reflexivity).
  rewrite HexFacts.be_int_be_bytes_small; lia.
Qed.

End Signing.

(** No signature for a digest of 31 or of 33 bytes. *)
Lemma sign_digest_length_witness :
  SigningKey.sign SmallEngine.engine SmallEngine.sample_signer (Bytes (repeat x00 31))
  = ([], Err (InvalidArgument "invalid digest length" "digest"
                (VBytes (Bytes (repeat x00 31)))))
  /\ SigningKey.sign SmallEngine.engine SmallEngine.sample_signer (Bytes (repeat x00 33))
     = ([], Err (InvalidArgument "invalid digest length" "digest"
                   (VBytes (Bytes (repeat x00 33))))).
Proof.
  split.
  - apply (sign_digest_length SmallEngine.engine SmallEngine.sample_signer
             (Bytes (repeat x00 31)) 31 eq_refl).
    discriminate.
  - apply (sign_digest_length SmallEngine.engine SmallEngine.sample_signer
             (Bytes (repeat x00 33)) 33 eq_refl).
    discriminate.
Defined.

(** ** Public keys *)

Section PublicKeys.

Variable E : secp256k1.CurveEngine.

(** The 65-byte array built for a raw key is the byte 0x04 and the key. *)
Lemma raw_key_array (bytes : list byte) :
  List.length bytes = 64%nat ->
  Uint8Array_set (Uint8Array_store (Uint8Array_new 65) 0 x04) bytes 1
  = OK (x04 :: bytes).
Proof.
  intros Hlen. unfold Uint8Array_set. rewrite Hlen.
  cbn. now rewrite app_nil_r.
Qed.

Lemma computePublicKey_private (key : BytesLike) (compressed : option bool)
    (bytes : list byte) :
  Utils.getBytes key "key" = OK bytes ->
  List.length bytes = 32%nat ->
  SigningKey.computePublicKey E key compressed
  = match secp256k1.getPublicKey E bytes (truthy compressed) with
    | OK pk => ([call_getPublicKey], OK ("0x" ++ Hex.bytesToHex pk))
    | Err e => ([call_getPublicKey], Err e)
    end.
Proof.
  intros Hb Hlen. unfold SigningKey.computePublicKey. rewrite Hb.
  cbn [lift bind app]. rewrite Hlen. cbn [Nat.eqb].
  destruct (secp256k1.getPublicKey E bytes (truthy compressed)); reflexivity.
Qed.

Lemma computePublicKey_encoded (key : BytesLike) (compressed : option bool)
    (bytes : list byte) :
  Utils.getBytes key "key" = OK bytes ->
  List.length bytes <> 32%nat ->
  List.length bytes <> 64%nat ->
  SigningKey.computePublicKey E key compressed
  = match secp256k1.Point_fromHex E (HexBytes bytes) with
    | OK point =>
        ([call_Point_fromHex; call_Point_toRawBytes],
         OK ("0x" ++ Hex.bytesToHex
                       (secp256k1.Point_toRawBytes E point (or_default_false compressed))))
    | Err e => ([call_Point_fromHex], Err e)
    end.
Proof.
  intros Hb H32 H64. unfold SigningKey.computePublicKey. rewrite Hb.
  apply Nat.eqb_neq in H32, H64.
  cbn [lift bind app]. rewrite H32, H64. cbn [ret bind app].
  destruct (secp256k1.Point_fromHex E (HexBytes bytes)); reflexivity.
Qed.

Lemma computePublicKey_prefixed (key : BytesLike) (compressed : option bool)
    (bytes : list byte) :
  Utils.getBytes key "key" = OK bytes ->
  List.length bytes = 64%nat ->
  SigningKey.computePublicKey E key compressed
  = match secp256k1.Point_fromHex E (HexBytes (x04 :: bytes)) with
    | OK point =>
        ([call_Point_fromHex; call_Point_toRawBytes],
         OK ("0x" ++ Hex.bytesToHex
                       (secp256k1.Point_toRawBytes E point (or_default_false compressed))))
    | Err e => ([call_Point_fromHex], Err e)
    end.
Proof.
  intros Hb Hlen. unfold SigningKey.computePublicKey. rewrite Hb.
  cbn [lift bind app]. rewrite Hlen. cbn [Nat.eqb].
  rewrite (raw_key_array _ Hlen). cbn [lift bind app].
  destruct (secp256k1.Point_fromHex E (HexBytes (x04 :: bytes))); reflexivity.
Qed.

(** C9. A key that decodes to exactly 64 bytes is taken as a raw point:
    the byte 0x04 is put before it, which makes 65 bytes; the engine
    decodes that encoding and encodes the point again in the form the
    [compressed] flag asks for, and those are the only engine calls. *)
Theorem computePublicKey_raw (key : BytesLike) (compressed : option bool)
    (bytes : list byte) :
  Utils.getBytes key "key" = OK bytes ->
  List.length bytes = 64%nat ->
  List.length (x04 :: bytes) = 65%nat
  /\ Uint8Array_set (Uint8Array_store (Uint8Array_new 65) 0 x04) bytes 1
     = OK (x04 :: bytes)
  /\ SigningKey.computePublicKey E key compressed
     = match secp256k1.Point_fromHex E (HexBytes (x04 :: bytes)) with
       | OK point =>
           ([call_Point_fromHex; call_Point_toRawBytes],
            OK ("0x" ++ Hex.bytesToHex
                          (secp256k1.Point_toRawBytes E point
                             (or_default_false compressed))))
       | Err e => ([call_Point_fromHex], Err e)
       end.
Proof.
  intros Hb Hlen. split; [cbn; now rewrite Hlen|].
  split; [now apply raw_key_array | now apply computePublicKey_prefixed].
Qed.

(** How [computePublicKey] treats a key, by the length it decodes to. *)
Lemma computePublicKey_cases (key : BytesLike) (compressed : option bool)
    (out : string) :
  outcome (SigningKey.computePublicKey E key compressed) = OK out ->
  exists bytes,
    Utils.getBytes key "key" = OK bytes
    /\ ((List.length bytes = 32%nat
         /\ exists pk,
             secp256k1.getPublicKey E bytes (truthy compressed) = OK pk
             /\ out = "0x" ++ Hex.bytesToHex pk)
        \/ (List.length bytes <> 32%nat
            /\ exists point,
                out = "0x" ++ Hex.bytesToHex
                                (secp256k1.Point_toRawBytes E point
                                   (or_default_false compressed)))).
Proof.
  intros H.
  destruct (Utils.getBytes key "key") as [bytes|e] eqn:Hb;
    [|unfold SigningKey.computePublicKey in H; rewrite Hb in H; discriminate].
  exists bytes. split; [reflexivity|].
  destruct (Nat.eq_dec (List.length bytes) 32) as [H32|H32].
  - left. split; [assumption|].
    rewrite (computePublicKey_private _ _ _ Hb H32) in H.
    destruct (secp256k1.getPublicKey E bytes (truthy compressed)) as [pk|e];
      [|discriminate].
    apply OK_inj in H. now exists pk.
  - right. split; [assumption|].
    destruct (Nat.eq_dec (List.length bytes) 64) as [H64|H64].
    + rewrite (computePublicKey_prefixed key compressed bytes Hb H64) in H.
      destruct (secp256k1.Point_fromHex E (HexBytes (x04 :: bytes))) as [point|e];
        [|discriminate].
      apply OK_inj in H. now exists point.
    + rewrite (computePublicKey_encoded _ _ _ Hb H32 H64) in H.
      destruct (secp256k1.Point_fromHex E (HexBytes bytes)) as [point|e];
        [|discriminate].
      apply OK_inj in H. now exists point.
Qed.

(** Under the contract, a key [computePublicKey] returns is the hex text
    of an encoding of a point. *)
Lemma computePublicKey_denotes (key : BytesLike) (compressed : option bool)
    (out : string) :
  Contract.public_key_point E ->
  outcome (SigningKey.computePublicKey E key compressed) = OK out ->
  exists P,
    out = "0x" ++ Hex.bytesToHex
                    (secp256k1.Point_toRawBytes E P (truthy compressed)).
Proof.
  intros Hpub H.
  destruct (computePublicKey_cases _ _ _ H)
    as (bytes & _ & [(_ & pk & Hpk & ->) | (_ & point & ->)]).
  - destruct (Hpub _ _ _ Hpk) as [P HP]. exists P.
    rewrite HP in Hpk. apply OK_inj in Hpk. now subst pk.
  - now exists point.
Qed.

Lemma decodePoint_encoding (P : secp256k1.Point E) (c : bool) :
  Contract.point_codec E ->
  decodePoint E ("0x" ++ Hex.bytesToHex (secp256k1.Point_toRawBytes E P c)) = OK P.
Proof.
  intros Hcodec. unfold decodePoint.
  now rewrite UtilsFacts.getBytes_hex, Hcodec.
Qed.

(** C5. Under the contract for encodings, a private key of 32 bytes that
    the engine accepts has one point [P]: [computePublicKey] of the key
    decodes to [P] in either form, and [computePublicKey] of any encoding
    of [P] (the raw 64 bytes, the 65 uncompressed bytes, the 33 compressed
    bytes, as bytes or as hex text), with [compressed] set, unset or
    omitted, returns a key that decodes to [P] again. *)
Theorem computePublicKey_roundtrip (k : BytesLike) (c0 : option bool)
    (pub0 : string) :
  Contract.encoding_lengths E ->
  Contract.point_codec E ->
  Contract.public_key_point E ->
  Utils.dataLength k = OK 32%nat ->
  outcome (SigningKey.computePublicKey E k c0) = OK pub0 ->
  exists P xy,
    secp256k1.Point_toRawBytes E P false = x04 :: xy
    /\ List.length xy = 64%nat
    /\ List.length (secp256k1.Point_toRawBytes E P true) = 33%nat
    /\ (forall c, exists pub,
          outcome (SigningKey.computePublicKey E k c) = OK pub
          /\ decodePoint E pub = OK P)
    /\ (forall enc bytes c,
          Utils.getBytes enc "key" = OK bytes ->
          In bytes [xy; secp256k1.Point_toRawBytes E P false;
                    secp256k1.Point_toRawBytes E P true] ->
          exists out,
            outcome (SigningKey.computePublicKey E enc c) = OK out
            /\ decodePoint E out = OK P).
Proof.
  intros [Hunc Hcmp] Hcodec Hpub Hlen H.
  destruct (UtilsFacts.dataLength_inv _ _ Hlen) as (kb & Hkb & Hk32).
  rewrite (computePublicKey_private _ _ _ (Hkb "key") Hk32) in H.
  destruct (secp256k1.getPublicKey E kb (truthy c0)) as [pk|e] eqn:Hpk;
    [|discriminate].
  destruct (Hpub _ _ _ Hpk) as [P HP].
  destruct (Hunc P) as (xy & Hxy & Hxylen).
  exists P, xy. repeat split; try assumption; [apply Hcmp| |].
  - intros c. eexists.
    rewrite (computePublicKey_private _ _ _ (Hkb "key") Hk32), HP.
    split; [reflexivity|]. now apply decodePoint_encoding.
  - intros enc bytes c Hb Hin.
    assert (Hdec : secp256k1.Point_fromHex E
                     (HexBytes (if Nat.eqb (List.length bytes) 64
                                then x04 :: bytes else bytes)) = OK P
                   /\ List.length bytes <> 32%nat).
    { destruct Hin as [<- | [<- | [<- | []]]].
      - rewrite Hxylen. cbn [Nat.eqb]. rewrite <- Hxy.
        split; [apply Hcodec | discriminate].
      - rewrite Hxy. cbn [List.length]. rewrite Hxylen. cbn [Nat.eqb].
        rewrite <- Hxy. split; [apply Hcodec | discriminate].
      - rewrite Hcmp. cbn [Nat.eqb]. split; [apply Hcodec | discriminate]. }
    destruct Hdec as [Hdec H32].
    destruct (Nat.eq_dec (List.length bytes) 64) as [H64|H64].
    + rewrite (computePublicKey_prefixed enc c bytes Hb H64).
      rewrite H64 in Hdec. cbn [Nat.eqb] in Hdec. rewrite Hdec.
      eexists. split; [reflexivity|]. now apply decodePoint_encoding.
    + rewrite (computePublicKey_encoded _ _ _ Hb H32 H64).
      apply Nat.eqb_neq in H64. rewrite H64 in Hdec. rewrite Hdec.
      eexists. split; [reflexivity|]. now apply decodePoint_encoding.
Qed.

(** [addPoints] once both keys have been normalized and decoded: the
    engine's addition decides the outcome. *)
Lemma addPoints_run (p0 p1 : BytesLike) (compressed : option bool)
    (P0 P1 : secp256k1.Point E) :
  Contract.point_codec E ->
  Contract.hex_text E ->
  outcome (SigningKey.computePublicKey E p0 None)
  = OK ("0x" ++ Hex.bytesToHex (secp256k1.Point_toRawBytes E P0 false)) ->
  outcome (SigningKey.computePublicKey E p1 None)
  = OK ("0x" ++ Hex.bytesToHex (secp256k1.Point_toRawBytes E P1 false)) ->
  outcome (SigningKey.addPoints E p0 p1 compressed)
  = match secp256k1.Point_add E P0 P1 with
    | OK R => OK ("0x" ++ secp256k1.Point_toHex E R (truthy compressed))
    | Err e => Err e
    end.
Proof.
  intros Hcodec Htext H0 H1.
  assert (Hdec : forall P,
             secp256k1.Point_fromHex E
               (HexStr (Hex.substring_from 2
                          ("0x" ++ Hex.bytesToHex (secp256k1.Point_toRawBytes E P false))))
             = OK P).
  { intros P. cbn [Hex.substring_from String.append]. now rewrite Htext, Hcodec. }
  unfold SigningKey.addPoints.
  do 4 (rewrite outcome_bind; cbn [outcome engine ret snd];
        rewrite ?H0, ?H1, ?Hdec).
  rewrite outcome_bind. cbn [outcome engine ret snd].
  destruct (secp256k1.Point_add E P0 P1) as [R|e]; [|reflexivity].
  rewrite outcome_bind. reflexivity.
Qed.

(** C10, as the code has it.  Under the contract, for keys [p0] and [p1]
    that [computePublicKey] accepts, with the points [P0] and [P1]: when
    the engine adds the points, [addPoints] returns the same text in
    either order of the two keys; when the engine's addition throws,
    [addPoints] throws that exception; and [addPoints] returns a text in
    one order exactly when it returns that text in the other. *)
Theorem addPoints_commutative (p0 p1 : BytesLike) (compressed : option bool)
    (h0 h1 : string) :
  Contract.point_codec E ->
  Contract.hex_text E ->
  Contract.public_key_point E ->
  Contract.add_commutative E ->
  outcome (SigningKey.computePublicKey E p0 None) = OK h0 ->
  outcome (SigningKey.computePublicKey E p1 None) = OK h1 ->
  exists P0 P1,
    decodePoint E h0 = OK P0
    /\ decodePoint E h1 = OK P1
    /\ (forall R,
          secp256k1.Point_add E P0 P1 = OK R ->
          exists out,
            outcome (SigningKey.addPoints E p0 p1 compressed) = OK out
            /\ outcome (SigningKey.addPoints E p1 p0 compressed) = OK out)
    /\ (forall e,
          secp256k1.Point_add E P0 P1 = Err e ->
          outcome (SigningKey.addPoints E p0 p1 compressed) = Err e)
    /\ (forall out,
          outcome (SigningKey.addPoints E p0 p1 compressed) = OK out
          <-> outcome (SigningKey.addPoints E p1 p0 compressed) = OK out).
Proof.
  intros Hcodec Htext Hpub Hcomm H0 H1.
  destruct (computePublicKey_denotes _ _ _ Hpub H0) as [P0 HP0].
  destruct (computePublicKey_denotes _ _ _ Hpub H1) as [P1 HP1].
  subst h0 h1. cbn [truthy] in H0, H1.
  pose proof (addPoints_run p0 p1 compressed P0 P1 Hcodec Htext H0 H1) as H01.
  pose proof (addPoints_run p1 p0 compressed P1 P0 Hcodec Htext H1 H0) as H10.
  exists P0, P1.
  split; [now apply decodePoint_encoding|].
  split; [now apply decodePoint_encoding|].
  split; [|split].
  - intros R HS. eexists. rewrite H01, H10, HS, (Hcomm _ _ _ HS). split; reflexivity.
  - intros e He. now rewrite H01, He.
  - intros out. rewrite H01, H10. split; intros H.
    + destruct (secp256k1.Point_add E P0 P1) as [R|e] eqn:HS; [|discriminate].
      now rewrite (Hcomm _ _ _ HS).
    + destruct (secp256k1.Point_add E P1 P0) as [R|e] eqn:HS; [|discriminate].
      now rewrite (Hcomm _ _ _ HS).
Qed.

End PublicKeys.

(** ** Recovery and shared secrets *)

Section Recovery.

Variable E : secp256k1.CurveEngine.

(** [recoverPublicKey] once its arguments have been read: the two engine
    calls decide the outcome. *)
Lemma recoverPublicKey_run (digest : BytesLike) (signature : Signature.like)
    (d : list byte) (sig : Signature.t) (rs : string) (compact : list byte) :
  Utils.getBytes digest "value" = OK d ->
  List.length d = 32%nat ->
  Signature_from signature = OK sig ->
  Utils.concat [Str (Signature.r sig); Str (Signature.s sig)] = OK rs ->
  Utils.getBytes (Str rs) "value" = OK compact ->
  outcome (SigningKey.recoverPublicKey E digest signature)
  = match secp256k1.Signature_fromCompact E (HexBytes compact) with
    | Err e => Err e
    | OK esig =>
        match secp256k1.recoverPublicKey E d
                (HexBytes (secp256k1.Signature_toDERRawBytes E esig))
                (Signature.yParity sig) with
        | Err e => Err e
        | OK None =>
            Err (InvalidArgument "invalid signautre for digest" "signature"
                   (VSignature signature))
        | OK (Some pk) => OK (Some ("0x" ++ Hex.bytesToHex pk))
        end
    end.
Proof.
  intros Hd Hlen Hsig Hrs Hcompact. unfold SigningKey.recoverPublicKey.
  rewrite (UtilsFacts.dataLength_getBytes _ _ _ Hd), Hlen.
  unfold Utils.getBytesCopy.
  repeat (rewrite outcome_bind;
          cbn [outcome engine lift ret snd Nat.eqb Utils.assertArgument];
          rewrite ?Hsig, ?Hrs, ?Hcompact, ?Hd).
  destruct (secp256k1.Signature_fromCompact E (HexBytes compact)) as [esig|e];
    [|reflexivity].
  repeat (rewrite outcome_bind; cbn [outcome engine lift ret snd]; rewrite ?Hd).
  destruct (secp256k1.recoverPublicKey E d _ _) as [[pk|]|e];
    repeat (rewrite outcome_bind; cbn [outcome engine lift ret snd]);
    reflexivity.
Qed.

(** [recoverPublicKey] never returns without a key. *)
Lemma recoverPublicKey_not_null (digest : BytesLike) (signature : Signature.like) :
  outcome (SigningKey.recoverPublicKey E digest signature) <> OK None.
Proof.
  unfold SigningKey.recoverPublicKey. intros H.
  bind_inv H as len Hlen. bind_inv H as u Hcheck. bind_inv H as sig Hsig.
  bind_inv H as rs Hrs. bind_inv H as compact Hcompact.
  bind_inv H as esig Hesig. bind_inv H as der Hder. bind_inv H as d Hd.
  bind_inv H as pubKey Hrec.
  destruct pubKey as [pk|].
  - bind_inv H as h Hh. discriminate.
  - bind_inv H as u' Hfail. discriminate.
Qed.

(** C6, as the code has it.  Once the digest and the signature have been
    read, [recoverPublicKey] never returns without a key; when the engine's
    recovery returns no key it signals the argument error
    [invalid signautre for digest], naming [signature] and carrying the
    signature supplied; an exception the engine throws, while decoding the
    compact signature or while recovering, reaches the caller unchanged. *)
Theorem recoverPublicKey_failure (digest : BytesLike) (signature : Signature.like)
    (d : list byte) (sig : Signature.t) (rs : string) (compact : list byte) :
  Utils.getBytes digest "value" = OK d ->
  List.length d = 32%nat ->
  Signature_from signature = OK sig ->
  Utils.concat [Str (Signature.r sig); Str (Signature.s sig)] = OK rs ->
  Utils.getBytes (Str rs) "value" = OK compact ->
  outcome (SigningKey.recoverPublicKey E digest signature) <> OK None
  /\ (forall esig,
        secp256k1.Signature_fromCompact E (HexBytes compact) = OK esig ->
        secp256k1.recoverPublicKey E d
          (HexBytes (secp256k1.Signature_toDERRawBytes E esig))
          (Signature.yParity sig) = OK None ->
        outcome (SigningKey.recoverPublicKey E digest signature)
        = Err (InvalidArgument "invalid signautre for digest" "signature"
                 (VSignature signature)))
  /\ (forall e,
        secp256k1.Signature_fromCompact E (HexBytes compact) = Err e ->
        outcome (SigningKey.recoverPublicKey E digest signature) = Err e)
  /\ (forall esig e,
        secp256k1.Signature_fromCompact E (HexBytes compact) = OK esig ->
        secp256k1.recoverPublicKey E d
          (HexBytes (secp256k1.Signature_toDERRawBytes E esig))
          (Signature.yParity sig) = Err e ->
        outcome (SigningKey.recoverPublicKey E digest signature) = Err e).
Proof.
  intros Hd Hlen Hsig Hrs Hcompact.
  pose proof (recoverPublicKey_run _ _ _ _ _ _ Hd Hlen Hsig Hrs Hcompact) as Hrun.
  split; [apply recoverPublicKey_not_null|].
  split; [|split].
  - intros esig Hesig Hnone. now rewrite Hrun, Hesig, Hnone.
  - intros e He. now rewrite Hrun, He.
  - intros esig e Hesig He. now rewrite Hrun, Hesig, He.
Qed.

Lemma constructor_inv (k : BytesLike) (this : SigningKey.t) :
  outcome (SigningKey.constructor k) = OK this ->
  exists kb,
    (forall n, Utils.getBytes k n = OK kb)
    /\ List.length kb = 32%nat
    /\ SigningKey.privateKey this = "0x" ++ Hex.bytesToHex kb.
Proof.
  unfold SigningKey.constructor. intros H.
  bind_inv H as len Hlen. bind_inv H as u Hcheck. bind_inv H as h Hh.
  cbn [outcome ret snd] in H. apply OK_inj in H. subst this.
  destruct (UtilsFacts.dataLength_inv _ _ Hlen) as (kb & Hkb & Hl).
  unfold Utils.assertArgument in Hcheck.
  destruct (Nat.eqb len 32) eqn:H32; [|discriminate].
  apply Nat.eqb_eq in H32. subst len.
  rewrite (UtilsFacts.hexlify_getBytes _ _ _ (Hkb "value")) in Hh.
  apply OK_inj in Hh. subst h.
  exists kb. now repeat split.
Qed.

(** C1. Under the engine's contract, for a key the constructor accepts
    and a digest of 32 bytes that the engine signs with it, [sign] returns
    a signature, and [recoverPublicKey] of the digest and that signature
    returns a key, the one [computePublicKey] returns for the private key
    with [compressed] false; it is 65 bytes. *)
Theorem recover_sign_roundtrip (k digest : BytesLike) (this : SigningKey.t)
    (kb d der : list byte) (recid : Z) :
  Contract.encoding_lengths E ->
  Contract.public_key_point E ->
  Contract.sign_wellformed E ->
  Contract.compact_codec E ->
  Contract.sign_recover E ->
  outcome (SigningKey.constructor k) = OK this ->
  Utils.getBytes k "value" = OK kb ->
  Utils.getBytes digest "value" = OK d ->
  List.length d = 32%nat ->
  secp256k1.signSync E d kb (secp256k1.mkSignOptions true true) = OK (der, recid) ->
  exists sig pub pb,
    outcome (SigningKey.sign E this digest) = OK sig
    /\ outcome (SigningKey.recoverPublicKey E digest (Signature.instance sig))
       = OK (Some pub)
    /\ outcome (SigningKey.computePublicKey E k (Some false)) = OK pub
    /\ Utils.getBytes (Str pub) "key" = OK pb
    /\ List.length pb = 65%nat.
Proof.
  intros [Hunc _] Hpub Hwf Hcompact Hrecover Hctor Hk Hd Hd32 Hsigned.
  destruct (constructor_inv _ _ Hctor) as (kb' & Hkb & Hk32 & Hpriv).
  rewrite (Hkb "value") in Hk. apply OK_inj in Hk. subst kb'.
  destruct (Hwf _ _ _ _ _ Hsigned) as (Hbit & esig & Hesig & Hr & Hs).
  destruct (Hrecover _ _ _ _ _ Hsigned Hesig) as (pk & Hrec & Hpk).
  destruct (Hpub _ _ _ Hpk) as [P HP].
  pose proof (HP false) as HPf. rewrite Hpk in HPf. apply OK_inj in HPf.
  destruct (Hunc P) as (xy & Hxy & Hxylen).
  assert (Hpriv' : Utils.getBytes (Str (SigningKey.privateKey this)) "value" = OK kb)
    by (rewrite Hpriv; apply UtilsFacts.getBytes_hex).
  eexists. exists ("0x" ++ Hex.bytesToHex pk), pk. repeat split.
  - rewrite (sign_run E this digest d kb der recid esig Hd Hd32 Hpriv' Hsigned Hesig)
      by lia.
    reflexivity.
  - erewrite recoverPublicKey_run;
      [| exact Hd | exact Hd32 | reflexivity
       | cbn [Signature.r Signature.s]; apply UtilsFacts.concat_pair
       | apply UtilsFacts.getBytes_hex].
    rewrite (Hcompact esig Hr Hs).
    replace (Signature.yParity _) with recid; [now rewrite Hrec|].
    unfold Signature.yParity. cbn [Signature.v].
    destruct Hbit as [-> | ->]; reflexivity.
  - rewrite (computePublicKey_private E _ _ _ (Hkb "key") Hk32).
    cbn [truthy]. now rewrite Hpk.
  - apply UtilsFacts.getBytes_hex.
  - rewrite HPf, Hxy. cbn [List.length]. now rewrite Hxylen.
Qed.

(** C4, where the code departs from it.  [computeShardSecret] hands the
    engine the key that [computePublicKey] returned, which is text
    beginning with the prefix.  For an engine that refuses such text, and
    a key [other] that [computePublicKey] accepts, [computeShardSecret]
    returns no secret: with a private key that reads, its outcome is the
    exception of the engine's [getSharedSecret]. *)
Theorem computeShardSecret_refused (this : SigningKey.t) (other : BytesLike)
    (pub : string) :
  Contract.prefixed_text_refused E ->
  outcome (SigningKey.computePublicKey E other None) = OK pub ->
  (exists digits, pub = "0x" ++ digits)
  /\ (forall out, outcome (SigningKey.computeShardSecret E this other) <> OK out)
  /\ (forall k,
        Utils.getBytes (Str (SigningKey.privateKey this)) "value" = OK k ->
        exists e,
          secp256k1.getSharedSecret E k (HexStr pub) = Err e
          /\ outcome (SigningKey.computeShardSecret E this other) = Err e).
Proof.
  intros Hrefused Hpk.
  assert (Hprefix : exists digits, pub = "0x" ++ digits).
  { destruct (computePublicKey_cases E _ _ _ Hpk)
      as (bytes & _ & [(_ & pk & _ & ->) | (_ & point & ->)]); eexists; reflexivity. }
  split; [exact Hprefix|].
  destruct Hprefix as [digits ->].
  assert (Hrun : forall k,
             Utils.getBytes (Str (SigningKey.privateKey this)) "value" = OK k ->
             exists e,
               secp256k1.getSharedSecret E k (HexStr ("0x" ++ digits)) = Err e
               /\ outcome (SigningKey.computeShardSecret E this other) = Err e).
  { intros k Hk. destruct (Hrefused k digits) as [e He]. exists e.
    split; [exact He|]. unfold SigningKey.computeShardSecret.
    rewrite outcome_bind, Hpk, outcome_bind. unfold Utils.getBytesCopy.
    cbn [outcome lift snd]. rewrite Hk, outcome_bind. cbn [outcome engine snd].
    now rewrite He. }
  split; [|exact Hrun].
  intros out H.
  destruct (Utils.getBytes (Str (SigningKey.privateKey this)) "value") as [k|e] eqn:Hk.
  - destruct (Hrun k eq_refl) as (e & _ & Herr). rewrite Herr in H. discriminate.
  - unfold SigningKey.computeShardSecret in H.
    rewrite outcome_bind, Hpk, outcome_bind in H. unfold Utils.getBytesCopy in H.
    cbn [outcome lift snd] in H. rewrite Hk in H. discriminate.
Qed.

End Recovery.

(** ** The theorems on the small engine *)

(** The recovery byte of the sample signature: the small engine gives the
    recovery bit 0, the signature carries 27. *)
Lemma sign_recovery_byte_witness :
  outcome (SigningKey.sign SmallEngine.engine SmallEngine.sample_signer
             SmallEngine.sample_digest) = OK SmallEngine.sample_signature
  /\ exists d k der recid,
      Utils.getBytes SmallEngine.sample_digest "value" = OK d
      /\ Utils.getBytes (Str (SigningKey.privateKey SmallEngine.sample_signer))
           "value" = OK k
      /\ secp256k1.signSync SmallEngine.engine d k (secp256k1.mkSignOptions true true)
         = OK (der, recid)
      /\ (recid = 0 -> Signature.v SmallEngine.sample_signature = 27)
      /\ (recid = 1 -> Signature.v SmallEngine.sample_signature = 28)
      /\ (Signature.v SmallEngine.sample_signature = 27
          \/ Signature.v SmallEngine.sample_signature = 28)
      /\ Signature.v SmallEngine.sample_signature <> 0
      /\ Signature.v SmallEngine.sample_signature <> 1.
Proof.
  split; [vm_compute; reflexivity|].
  apply (sign_recovery_byte SmallEngine.engine SmallEngine.sample_signer
           SmallEngine.sample_digest SmallEngine.sample_signature).
  vm_compute. reflexivity.
Defined.

(** The sample signature is in low-s form. *)
Lemma sign_low_s_witness :
  Contract.sign_canonical SmallEngine.engine
  /\ outcome (SigningKey.sign SmallEngine.engine SmallEngine.sample_signer
                SmallEngine.sample_digest) = OK SmallEngine.sample_signature
  /\ exists sb,
      Utils.getBytes (Str (Signature.s SmallEngine.sample_signature)) "s" = OK sb
      /\ List.length sb = 32%nat
      /\ Hex.be_int sb <= Curve.N / 2.
Proof.
  split; [exact SmallEngineFacts.sign_canonical|].
  split; [vm_compute; reflexivity|].
  apply (sign_low_s SmallEngine.engine SmallEngine.sample_signer
           SmallEngine.sample_digest SmallEngine.sample_signature
           SmallEngineFacts.sign_canonical).
  vm_compute. reflexivity.
Defined.

(** The raw 64 bytes of the sample point, compressed. *)
Lemma computePublicKey_raw_witness :
  List.length (x04 :: SmallEngine.sample_raw) = 65%nat
  /\ Uint8Array_set (Uint8Array_store (Uint8Array_new 65) 0 x04)
       SmallEngine.sample_raw 1
     = OK (x04 :: SmallEngine.sample_raw)
  /\ SigningKey.computePublicKey SmallEngine.engine
       (Bytes SmallEngine.sample_raw) (Some true)
     = ([call_Point_fromHex; call_Point_toRawBytes],
        OK ("0x" ++ Hex.bytesToHex (SmallEngine.encode SmallEngine.sample_point true))).
Proof.
  exact (computePublicKey_raw SmallEngine.engine (Bytes SmallEngine.sample_raw)
           (Some true) SmallEngine.sample_raw eq_refl eq_refl).
Defined.

(** Every encoding of the sample public key goes back to the sample
    point. *)
Lemma computePublicKey_roundtrip_witness :
  outcome (SigningKey.computePublicKey SmallEngine.engine SmallEngine.sample_key None)
  = OK SmallEngine.sample_public
  /\ exists (P : secp256k1.Point SmallEngine.engine) xy,
      secp256k1.Point_toRawBytes SmallEngine.engine P false = x04 :: xy
      /\ List.length xy = 64%nat
      /\ List.length (secp256k1.Point_toRawBytes SmallEngine.engine P true) = 33%nat
      /\ (forall c, exists pub,
            outcome (SigningKey.computePublicKey SmallEngine.engine
                       SmallEngine.sample_key c) = OK pub
            /\ decodePoint SmallEngine.engine pub = OK P)
      /\ (forall enc bytes c,
            Utils.getBytes enc "key" = OK bytes ->
            In bytes [xy; secp256k1.Point_toRawBytes SmallEngine.engine P false;
                      secp256k1.Point_toRawBytes SmallEngine.engine P true] ->
            exists out,
              outcome (SigningKey.computePublicKey SmallEngine.engine enc c) = OK out
              /\ decodePoint SmallEngine.engine out = OK P).
Proof.
  split; [vm_compute; reflexivity|].
  apply (computePublicKey_roundtrip SmallEngine.engine SmallEngine.sample_key None
           SmallEngine.sample_public SmallEngineFacts.encoding_lengths
           SmallEngineFacts.point_codec SmallEngineFacts.public_key_point).
  - vm_compute. reflexivity.
  - vm_compute. reflexivity.
Defined.

(** The sample key and another public key, added in both orders. *)
Lemma addPoints_commutative_witness :
  outcome (SigningKey.addPoints SmallEngine.engine SmallEngine.sample_key
             SmallEngine.sample_other (Some true))
  = OK ("0x" ++ Hex.bytesToHex (SmallEngine.encode (SmallEngine.mkPoint x0c false) true))
  /\ exists (P0 P1 : secp256k1.Point SmallEngine.engine),
    decodePoint SmallEngine.engine SmallEngine.sample_public = OK P0
    /\ decodePoint SmallEngine.engine
         ("0x" ++ Hex.bytesToHex
                    (SmallEngine.encode (SmallEngine.mkPoint x05 false) false))
       = OK P1
    /\ (forall R,
          secp256k1.Point_add SmallEngine.engine P0 P1 = OK R ->
          exists out,
            outcome (SigningKey.addPoints SmallEngine.engine SmallEngine.sample_key
                       SmallEngine.sample_other (Some true)) = OK out
            /\ outcome (SigningKey.addPoints SmallEngine.engine SmallEngine.sample_other
                          SmallEngine.sample_key (Some true)) = OK out)
    /\ (forall e,
          secp256k1.Point_add SmallEngine.engine P0 P1 = Err e ->
          outcome (SigningKey.addPoints SmallEngine.engine SmallEngine.sample_key
                     SmallEngine.sample_other (Some true)) = Err e)
    /\ (forall out,
          outcome (SigningKey.addPoints SmallEngine.engine SmallEngine.sample_key
                     SmallEngine.sample_other (Some true)) = OK out
          <-> outcome (SigningKey.addPoints SmallEngine.engine SmallEngine.sample_other
                         SmallEngine.sample_key (Some true)) = OK out).
Proof.
  split; [vm_compute; reflexivity|].
  apply (addPoints_commutative SmallEngine.engine SmallEngine.sample_key
           SmallEngine.sample_other (Some true) SmallEngine.sample_public
           ("0x" ++ Hex.bytesToHex
                      (SmallEngine.encode (SmallEngine.mkPoint x05 false) false))
           SmallEngineFacts.point_codec SmallEngineFacts.hex_text
           SmallEngineFacts.public_key_point SmallEngineFacts.add_commutative).
  - vm_compute. reflexivity.
  - vm_compute. reflexivity.
Defined.

(** C10, as the claim states it, fails: the sample key and the public key
    of the opposite point are two keys [computePublicKey] accepts, and
    [addPoints] returns no point for them; the engine's addition throws
    and the caller gets that exception. *)
Lemma addPoints_no_sum :
  outcome (SigningKey.computePublicKey SmallEngine.engine SmallEngine.sample_key None)
  = OK SmallEngine.sample_public
  /\ outcome (SigningKey.computePublicKey SmallEngine.engine
                SmallEngine.sample_opposite None)
     = OK ("0x" ++ Hex.bytesToHex
                     (SmallEngine.encode (SmallEngine.mkPoint x07 true) false))
  /\ SigningKey.addPoints SmallEngine.engine SmallEngine.sample_key
       SmallEngine.sample_opposite None
     = ([call_getPublicKey; call_Point_fromHex; call_Point_fromHex;
         call_Point_toRawBytes; call_Point_fromHex; call_Point_add],
        Err (EngineError "Point.add: the sum is the point at infinity"))
  /\ ~ (exists out,
          outcome (SigningKey.addPoints SmallEngine.engine SmallEngine.sample_key
                     SmallEngine.sample_opposite None) = OK out).
Proof.
  split; [vm_compute; reflexivity|].
  split; [vm_compute; reflexivity|].
  split; [vm_compute; reflexivity|].
  intros [out H]. vm_compute in H. discriminate H.
Qed.

(** C6, as the claim states it, fails: for the signature whose [r] is
    zero the small engine throws while decoding the compact signature, and
    the caller gets that exception, not an argument error naming
    [signature]. *)
Lemma recoverPublicKey_engine_exception :
  SigningKey.recoverPublicKey SmallEngine.engine SmallEngine.sample_digest
    SmallEngine.zero_r_signature
  = ([call_Signature_fromCompact],
     Err (EngineError "Invalid Signature: r and s must be in 0 < x < n"))
  /\ ~ (exists message val,
          outcome (SigningKey.recoverPublicKey SmallEngine.engine
                     SmallEngine.sample_digest SmallEngine.zero_r_signature)
          = Err (InvalidArgument message "signature" val)).
Proof.
  split; [vm_compute; reflexivity|].
  intros (message & val & H). vm_compute in H. discriminate H.
Qed.

(** A signature that recovers no key for the sample digest. *)
Lemma recoverPublicKey_failure_witness :
  outcome (SigningKey.recoverPublicKey SmallEngine.engine SmallEngine.sample_digest
             SmallEngine.unrelated_signature)
  = Err (InvalidArgument "invalid signautre for digest" "signature"
           (VSignature SmallEngine.unrelated_signature)).
Proof.
  refine (proj1 (proj2
            (recoverPublicKey_failure SmallEngine.engine SmallEngine.sample_digest
               SmallEngine.unrelated_signature (SmallEngine.scalar x09)
               (Signature.mk ("0x" ++ Hex.bytesToHex (Hex.be_bytes 32 1))
                  ("0x" ++ Hex.bytesToHex (Hex.be_bytes 32 1)) 27)
               ("0x" ++ Hex.bytesToHex (Hex.be_bytes 32 1 ++ Hex.be_bytes 32 1))
               (Hex.be_bytes 32 1 ++ Hex.be_bytes 32 1)%list
               _ _ _ _ _))
            (secp256k1.mkEngineSignature 1 1) _ _);
    vm_compute; reflexivity.
Defined.

(** The sample signature recovers the sample public key. *)
Lemma recover_sign_roundtrip_witness :
  exists sig pub pb,
    outcome (SigningKey.sign SmallEngine.engine SmallEngine.sample_signer
               SmallEngine.sample_digest) = OK sig
    /\ outcome (SigningKey.recoverPublicKey SmallEngine.engine SmallEngine.sample_digest
                  (Signature.instance sig)) = OK (Some pub)
    /\ outcome (SigningKey.computePublicKey SmallEngine.engine
                  SmallEngine.sample_key (Some false)) = OK pub
    /\ Utils.getBytes (Str pub) "key" = OK pb
    /\ List.length pb = 65%nat.
Proof.
  apply (recover_sign_roundtrip SmallEngine.engine SmallEngine.sample_key
           SmallEngine.sample_digest SmallEngine.sample_signer
           (SmallEngine.scalar x07) (SmallEngine.scalar x09)
           (SmallEngine.toDERRawBytes (secp256k1.mkEngineSignature 8 5)) 0
           SmallEngineFacts.encoding_lengths SmallEngineFacts.public_key_point
           SmallEngineFacts.sign_wellformed SmallEngineFacts.compact_codec
           SmallEngineFacts.sign_recover);
    vm_compute; reflexivity.
Defined.

(** The sample signer and another public key: the small engine refuses
    the prefixed text. *)
Lemma computeShardSecret_refused_witness :
  SigningKey.computeShardSecret SmallEngine.engine SmallEngine.sample_signer
    SmallEngine.sample_other
  = ([call_Point_fromHex; call_Point_toRawBytes; call_getSharedSecret],
     Err (EngineError "hexToBytes: invalid hex"))
  /\ (exists digits,
        "0x" ++ Hex.bytesToHex (SmallEngine.encode (SmallEngine.mkPoint x05 false) false)
        = "0x" ++ digits)
  /\ (forall out,
        outcome (SigningKey.computeShardSecret SmallEngine.engine
                   SmallEngine.sample_signer SmallEngine.sample_other) <> OK out)
  /\ (forall k,
        Utils.getBytes (Str (SigningKey.privateKey SmallEngine.sample_signer)) "value"
        = OK k ->
        exists e,
          secp256k1.getSharedSecret SmallEngine.engine k
            (HexStr ("0x" ++ Hex.bytesToHex
                               (SmallEngine.encode (SmallEngine.mkPoint x05 false) false)))
          = Err e
          /\ outcome (SigningKey.computeShardSecret SmallEngine.engine
                        SmallEngine.sample_signer SmallEngine.sample_other) = Err e).
Proof.
  split; [vm_compute; reflexivity|].
  apply (computeShardSecret_refused SmallEngine.engine SmallEngine.sample_signer
           SmallEngine.sample_other
           ("0x" ++ Hex.bytesToHex
                      (SmallEngine.encode (SmallEngine.mkPoint x05 false) false))
           SmallEngineFacts.prefixed_text_refused).
  vm_compute. reflexivity.
Defined.

(** ** Further properties of the class *)

Lemma bytesToHex_length (bs : list byte) :
  String.length (Hex.bytesToHex bs) = (2 * List.length bs)%nat.
Proof.
  induction bs as [|b rest IH]; [reflexivity|].
  cbn [Hex.bytesToHex String.length List.length]. rewrite IH. lia.
Qed.

Lemma hex_text_length (bs : list byte) :
  String.length ("0x" ++ Hex.bytesToHex bs) = (2 + 2 * List.length bs)%nat.
Proof. cbn [String.append String.length]. now rewrite bytesToHex_length. Qed.

(** X1. The private key of an instance is the prefix and 64 hex digits,
    it reads back as the bytes the instance was made from, and an instance
    made from it is the same instance. *)
Theorem privateKey_roundtrip (k : BytesLike) (this : SigningKey.t) :
  outcome (SigningKey.constructor k) = OK this ->
  exists kb,
    Utils.getBytes k "value" = OK kb
    /\ Utils.getBytesCopy (Str (SigningKey.privateKey this)) = OK kb
    /\ String.length (SigningKey.privateKey this) = 66%nat
    /\ SigningKey.constructor (Str (SigningKey.privateKey this)) = ([], OK this).
Proof.
  intros H. destruct (constructor_inv _ _ H) as (kb & Hkb & Hlen & Hpriv).
  destruct this as [priv]. cbn [SigningKey.privateKey] in *. subst priv.
  exists kb. split; [apply Hkb|].
  split; [apply UtilsFacts.getBytes_hex|].
  split; [rewrite hex_text_length, Hlen; reflexivity|].
  unfold SigningKey.constructor.
  rewrite (UtilsFacts.dataLength_getBytes _ "value" kb (UtilsFacts.getBytes_hex _ _)).
  rewrite Hlen.
  now rewrite (UtilsFacts.hexlify_getBytes _ "value" kb (UtilsFacts.getBytes_hex _ _)).
Qed.

Lemma privateKey_roundtrip_witness :
  exists kb,
    Utils.getBytes SmallEngine.sample_key "value" = OK kb
    /\ Utils.getBytesCopy (Str (SigningKey.privateKey SmallEngine.sample_signer)) = OK kb
    /\ String.length (SigningKey.privateKey SmallEngine.sample_signer) = 66%nat
    /\ SigningKey.constructor (Str (SigningKey.privateKey SmallEngine.sample_signer))
       = ([], OK SmallEngine.sample_signer).
Proof.
  apply (privateKey_roundtrip SmallEngine.sample_key SmallEngine.sample_signer).
  vm_compute. reflexivity.
Defined.

Section FurtherSigning.

Variable E : secp256k1.CurveEngine.

(** X2. The recovery byte distinguishes only zero from not zero: it is 27
    exactly when the engine's recovery value is 0, and 28 for every other
    value, 2 and 3 included. *)
Theorem sign_recovery_truthy (this : SigningKey.t) (digest : BytesLike)
    (sig : Signature.t) :
  outcome (SigningKey.sign E this digest) = OK sig ->
  exists d k der recid,
    Utils.getBytes digest "value" = OK d
    /\ Utils.getBytes (Str (SigningKey.privateKey this)) "value" = OK k
    /\ secp256k1.signSync E d k (secp256k1.mkSignOptions true true) = OK (der, recid)
    /\ (Signature.v sig = 27 <-> recid = 0)
    /\ (Signature.v sig = 28 <-> recid <> 0)
    /\ (Signature.yParity sig = recid <-> recid = 0 \/ recid = 1).
Proof.
  intros H.
  destruct (sign_inv E _ _ _ H)
    as (d & k & der & recid & esig & Hd & _ & Hk & Hsign & _ & _ & _ & ->).
  exists d, k, der, recid. unfold Signature.yParity. cbn [Signature.v].
  repeat split; try assumption;
    destruct (Z.eqb_spec recid 0) as [Hz|Hz]; intros; subst; try lia.
Qed.


(** X4. Once the digest has passed the length check, an exception of the
    engine's [signSync] reaches the caller unchanged and no other engine
    call is made; an exception of [Signature.fromHex] on the signed bytes
    reaches the caller unchanged as well. *)
Theorem sign_engine_failure (this : SigningKey.t) (digest : BytesLike)
    (d k : list byte) :
  Utils.getBytes digest "value" = OK d ->
  List.length d = 32%nat ->
  Utils.getBytes (Str (SigningKey.privateKey this)) "value" = OK k ->
  (forall e,
      secp256k1.signSync E d k (secp256k1.mkSignOptions true true) = Err e ->
      SigningKey.sign E this digest = ([call_signSync], Err e))
  /\ (forall der recid e,
        secp256k1.signSync E d k (secp256k1.mkSignOptions true true) = OK (der, recid) ->
        secp256k1.Signature_fromHex E (HexBytes der) = Err e ->
        SigningKey.sign E this digest
        = ([call_signSync; call_Signature_fromHex], Err e)).
Proof.
  intros Hd Hlen Hk.
  assert (Hrun : SigningKey.sign E this digest
            = ('(sigDer, recid) <- engine call_signSync
                  (secp256k1.signSync E d k (secp256k1.mkSignOptions true true)) ;;
               sig <- engine call_Signature_fromHex
                        (secp256k1.Signature_fromHex E (HexBytes sigDer)) ;;
               r <- lift (Utils.toHex ("0x" ++ Hex.toString16 (secp256k1.sig_r sig)) 32) ;;
               s <- lift (Utils.toHex ("0x" ++ Hex.toString16 (secp256k1.sig_s sig)) 32) ;;
               lift (Signature_from
                       (Signature.object (Str r) (Str s)
                          (if recid =? 0 then 0x1b else 0x1c))))).
  { unfold SigningKey.sign.
    rewrite (UtilsFacts.dataLength_getBytes _ _ _ Hd), Hlen.
    unfold Utils.getBytesCopy. rewrite Hd, Hk.
    cbn [lift bind app Nat.eqb Utils.assertArgument].
    destruct (engine call_signSync _) as [t [[sd rc]|e]]; cbn [bind];
      [|reflexivity].
    now destruct (bind (engine call_Signature_fromHex _) _). }
  split.
  - intros e He. rewrite Hrun, He. reflexivity.
  - intros der recid e Hs He. rewrite Hrun, Hs. cbn [engine bind]. rewrite He.
    reflexivity.
Qed.

End FurtherSigning.

Section FurtherPublicKeys.

Variable E : secp256k1.CurveEngine.

Lemma or_default_false_truthy (c : option bool) : or_default_false c = truthy c.
Proof. now destruct c. Qed.

(** [computePublicKey] sees a key only through its bytes. *)
Lemma computePublicKey_ext (k1 k2 : BytesLike) (c : option bool) :
  Utils.getBytes k1 "key" = Utils.getBytes k2 "key" ->
  SigningKey.computePublicKey E k1 c = SigningKey.computePublicKey E k2 c.
Proof. intros H. unfold SigningKey.computePublicKey. now rewrite H. Qed.

(** [computePublicKey] of the hex text of an encoding of a point. *)
Lemma computePublicKey_of_encoding (P : secp256k1.Point E) (b : bool)
    (c : option bool) :
  Contract.encoding_lengths E ->
  Contract.point_codec E ->
  SigningKey.computePublicKey E
    (Str ("0x" ++ Hex.bytesToHex (secp256k1.Point_toRawBytes E P b))) c
  = ([call_Point_fromHex; call_Point_toRawBytes],
     OK ("0x" ++ Hex.bytesToHex (secp256k1.Point_toRawBytes E P (truthy c)))).
Proof.
  intros [Hunc Hcmp] Hcodec.
  assert (Hlen : List.length (secp256k1.Point_toRawBytes E P b) <> 32%nat
                 /\ List.length (secp256k1.Point_toRawBytes E P b) <> 64%nat).
  { destruct b.
    - rewrite Hcmp. split; discriminate.
    - destruct (Hunc P) as (xy & -> & Hxy). cbn [List.length]. rewrite Hxy.
      split; discriminate. }
  destruct Hlen as [H32 H64].
  rewrite (computePublicKey_encoded E _ c _ (UtilsFacts.getBytes_hex _ "key") H32 H64).
  now rewrite Hcodec, or_default_false_truthy.
Qed.

(** A key [computePublicKey] accepts has one point, whatever the flag. *)
Lemma computePublicKey_point (key : BytesLike) (c : option bool) (out : string) :
  Contract.public_key_point E ->
  outcome (SigningKey.computePublicKey E key c) = OK out ->
  exists P, forall c',
    outcome (SigningKey.computePublicKey E key c')
    = OK ("0x" ++ Hex.bytesToHex (secp256k1.Point_toRawBytes E P (truthy c'))).
Proof.
  intros Hpub H.
  destruct (Utils.getBytes key "key") as [bytes|e] eqn:Hb;
    [|unfold SigningKey.computePublicKey in H; rewrite Hb in H; discriminate].
  destruct (Nat.eq_dec (List.length bytes) 32) as [H32|H32].
  - rewrite (computePublicKey_private E _ _ _ Hb H32) in H.
    destruct (secp256k1.getPublicKey E bytes (truthy c)) as [pk|e] eqn:Hpk;
      [|discriminate].
    destruct (Hpub _ _ _ Hpk) as [P HP]. exists P. intros c'.
    now rewrite (computePublicKey_private E _ _ _ Hb H32), HP.
  - destruct (Nat.eq_dec (List.length bytes) 64) as [H64|H64].
    + rewrite (computePublicKey_prefixed E key c bytes Hb H64) in H.
      destruct (secp256k1.Point_fromHex E (HexBytes (x04 :: bytes))) as [P|e] eqn:HP;
        [|discriminate].
      exists P. intros c'.
      now rewrite (computePublicKey_prefixed E key c' bytes Hb H64), HP,
        or_default_false_truthy.
    + rewrite (computePublicKey_encoded E _ _ _ Hb H32 H64) in H.
      destruct (secp256k1.Point_fromHex E (HexBytes bytes)) as [P|e] eqn:HP;
        [|discriminate].
      exists P. intros c'.
      now rewrite (computePublicKey_encoded E _ _ _ Hb H32 H64), HP,
        or_default_false_truthy.
Qed.

Lemma computePublicKey_again (key : BytesLike) (c1 c2 : option bool) (out : string) :
  Contract.encoding_lengths E ->
  Contract.point_codec E ->
  Contract.public_key_point E ->
  outcome (SigningKey.computePublicKey E key c1) = OK out ->
  outcome (SigningKey.computePublicKey E (Str out) c2)
  = outcome (SigningKey.computePublicKey E key c2).
Proof.
  intros Hlen Hcodec Hpub H.
  destruct (computePublicKey_point _ _ _ Hpub H) as [P HP].
  rewrite (HP c1) in H. apply OK_inj in H. subst out.
  now rewrite (computePublicKey_of_encoding P _ c2 Hlen Hcodec), HP.
Qed.

(** X5. Under the engine's contract for encodings, normalizing twice is
    normalizing once: for a key of any kind that [computePublicKey]
    accepts, [computePublicKey] of the key it returned gives, for every
    flag, what [computePublicKey] of the original key gives for that
    flag, and it succeeds. *)
Theorem computePublicKey_idempotent (key : BytesLike) (c1 c2 : option bool)
    (out : string) :
  Contract.encoding_lengths E ->
  Contract.point_codec E ->
  Contract.public_key_point E ->
  outcome (SigningKey.computePublicKey E key c1) = OK out ->
  exists out',
    outcome (SigningKey.computePublicKey E key c2) = OK out'
    /\ outcome (SigningKey.computePublicKey E (Str out) c2) = OK out'
    /\ (truthy c1 = truthy c2 -> out' = out).
Proof.
  intros Hlen Hcodec Hpub H.
  destruct (computePublicKey_point _ _ _ Hpub H) as [P HP].
  eexists. split; [apply HP|]. split.
  - now rewrite (computePublicKey_again _ _ _ _ Hlen Hcodec Hpub H), HP.
  - intros Hc. rewrite (HP c1) in H. apply OK_inj in H. now rewrite <- H, Hc.
Qed.

(** X6. The [publicKey] of an instance is [computePublicKey] of the key
    the instance was made from; under the engine's contract, when it
    returns, the text is 132 characters and begins with [0x04]. *)
Theorem publicKey_text (k : BytesLike) (this : SigningKey.t) :
  Contract.encoding_lengths E ->
  Contract.public_key_point E ->
  outcome (SigningKey.constructor k) = OK this ->
  SigningKey.publicKey E this = SigningKey.computePublicKey E k None
  /\ forall pub,
      outcome (SigningKey.publicKey E this) = OK pub ->
      String.length pub = 132%nat /\ exists rest, pub = "0x04" ++ rest.
Proof.
  intros [Hunc _] Hpub Hctor.
  destruct (constructor_inv _ _ Hctor) as (kb & Hkb & Hk32 & Hpriv).
  assert (Heq : SigningKey.publicKey E this = SigningKey.computePublicKey E k None).
  { unfold SigningKey.publicKey. apply computePublicKey_ext.
    now rewrite Hpriv, UtilsFacts.getBytes_hex, Hkb. }
  split; [exact Heq|]. intros pub H. rewrite Heq in H.
  destruct (computePublicKey_point _ _ _ Hpub H) as [P HP].
  rewrite (HP None) in H. apply OK_inj in H. subst pub. cbn [truthy].
  destruct (Hunc P) as (xy & -> & Hxy). split.
  - rewrite hex_text_length. cbn [List.length]. now rewrite Hxy.
  - now exists (Hex.bytesToHex xy).
Qed.

(** X7. The [compressedPublicKey] of an instance is [computePublicKey] of
    the key with the flag set; under the engine's contract, when it
    returns, the text is 68 characters, begins with [0x02] or [0x03], and
    is what [computePublicKey] with the flag set makes of [publicKey]. *)
Theorem compressedPublicKey_text (k : BytesLike) (this : SigningKey.t) :
  Contract.encoding_lengths E ->
  Contract.compressed_prefix E ->
  Contract.point_codec E ->
  Contract.public_key_point E ->
  outcome (SigningKey.constructor k) = OK this ->
  SigningKey.compressedPublicKey E this = SigningKey.computePublicKey E k (Some true)
  /\ forall cpub,
      outcome (SigningKey.compressedPublicKey E this) = OK cpub ->
      String.length cpub = 68%nat
      /\ (exists rest, cpub = "0x02" ++ rest \/ cpub = "0x03" ++ rest)
      /\ exists pub,
          outcome (SigningKey.publicKey E this) = OK pub
          /\ outcome (SigningKey.computePublicKey E (Str pub) (Some true)) = OK cpub.
Proof.
  intros Hlen Hprefix Hcodec Hpub Hctor.
  destruct (constructor_inv _ _ Hctor) as (kb & Hkb & Hk32 & Hpriv).
  assert (Hext : forall c,
             SigningKey.computePublicKey E (Str (SigningKey.privateKey this)) c
             = SigningKey.computePublicKey E k c).
  { intros c. apply computePublicKey_ext.
    now rewrite Hpriv, UtilsFacts.getBytes_hex, Hkb. }
  unfold SigningKey.compressedPublicKey, SigningKey.publicKey.
  split; [apply Hext|]. intros cpub H. rewrite Hext in H.
  destruct (computePublicKey_point _ _ _ Hpub H) as [P HP].
  rewrite (HP (Some true)) in H. apply OK_inj in H. subst cpub. cbn [truthy].
  split; [|split].
  - rewrite hex_text_length, (proj2 Hlen P). reflexivity.
  - destruct (Hprefix P) as (x & [-> | ->]); exists (Hex.bytesToHex x); auto.
  - exists ("0x" ++ Hex.bytesToHex (secp256k1.Point_toRawBytes E P false)).
    rewrite Hext. split; [apply (HP None)|].
    now rewrite (computePublicKey_of_encoding P false (Some true) Hlen Hcodec).
Qed.

End FurtherPublicKeys.

Section FurtherOperations.

Variable E : secp256k1.CurveEngine.

(** X8. An exception of the engine reaches the caller of
    [computePublicKey] unchanged: that of [getPublicKey] for a key of 32
    bytes, that of [Point.fromHex] for a key of any length other than 32
    and 64, the empty key included; the call that threw is the only engine
    call made. *)
Theorem computePublicKey_engine_failure (key : BytesLike) (c : option bool)
    (bytes : list byte) (e : error) :
  Utils.getBytes key "key" = OK bytes ->
  (List.length bytes = 32%nat ->
   secp256k1.getPublicKey E bytes (truthy c) = Err e ->
   SigningKey.computePublicKey E key c = ([call_getPublicKey], Err e))
  /\ (List.length bytes <> 32%nat -> List.length bytes <> 64%nat ->
      secp256k1.Point_fromHex E (HexBytes bytes) = Err e ->
      SigningKey.computePublicKey E key c = ([call_Point_fromHex], Err e)).
Proof.
  intros Hb. split.
  - intros H32 He. now rewrite (computePublicKey_private E _ _ _ Hb H32), He.
  - intros H32 H64 He. now rewrite (computePublicKey_encoded E _ _ _ Hb H32 H64), He.
Qed.

(** X9. Under the engine's contract, for keys [computePublicKey] accepts,
    with the points [P0] and [P1]: when the engine adds the points,
    [addPoints] returns the encoding of the sum, in the form the flag
    asks for, as prefixed hex text that decodes to the sum; when the
    engine's addition throws, that exception is the outcome. *)
Theorem addPoints_sum (p0 p1 : BytesLike) (compressed : option bool)
    (h0 h1 : string) :
  Contract.point_codec E ->
  Contract.hex_text E ->
  Contract.public_key_point E ->
  Contract.toHex_encoding E ->
  outcome (SigningKey.computePublicKey E p0 None) = OK h0 ->
  outcome (SigningKey.computePublicKey E p1 None) = OK h1 ->
  exists P0 P1,
    decodePoint E h0 = OK P0
    /\ decodePoint E h1 = OK P1
    /\ (forall R,
          secp256k1.Point_add E P0 P1 = OK R ->
          outcome (SigningKey.addPoints E p0 p1 compressed)
          = OK ("0x" ++ Hex.bytesToHex
                          (secp256k1.Point_toRawBytes E R (truthy compressed)))
          /\ decodePoint E
               ("0x" ++ Hex.bytesToHex
                          (secp256k1.Point_toRawBytes E R (truthy compressed)))
             = OK R)
    /\ (forall e,
          secp256k1.Point_add E P0 P1 = Err e ->
          outcome (SigningKey.addPoints E p0 p1 compressed) = Err e).
Proof.
  intros Hcodec Htext Hpub HtoHex H0 H1.
  destruct (computePublicKey_denotes E _ _ _ Hpub H0) as [P0 HP0].
  destruct (computePublicKey_denotes E _ _ _ Hpub H1) as [P1 HP1].
  subst h0 h1. cbn [truthy] in H0, H1.
  pose proof (addPoints_run E p0 p1 compressed P0 P1 Hcodec Htext H0 H1) as Hrun.
  exists P0, P1.
  split; [now apply decodePoint_encoding|].
  split; [now apply decodePoint_encoding|].
  split.
  - intros R HR. rewrite Hrun, HR, HtoHex.
    split; [reflexivity | now apply decodePoint_encoding].
  - intros e He. now rewrite Hrun, He.
Qed.

(** X10. [addPoints] reads its keys in order and stops at the first that
    fails: when [computePublicKey] refuses [p0] the caller gets that
    exception and the engine calls made are those made for [p0], nothing
    for [p1]; when [p0] is accepted and decoded and [p1] is refused, the
    caller gets the exception of [p1]. *)
Theorem addPoints_first_failure (p0 p1 : BytesLike) (compressed : option bool)
    (e : error) :
  (outcome (SigningKey.computePublicKey E p0 None) = Err e ->
   outcome (SigningKey.addPoints E p0 p1 compressed) = Err e
   /\ trace (SigningKey.addPoints E p0 p1 compressed)
      = trace (SigningKey.computePublicKey E p0 None))
  /\ (forall h0 pub0,
        outcome (SigningKey.computePublicKey E p0 None) = OK h0 ->
        secp256k1.Point_fromHex E (HexStr (Hex.substring_from 2 h0)) = OK pub0 ->
        outcome (SigningKey.computePublicKey E p1 None) = Err e ->
        outcome (SigningKey.addPoints E p0 p1 compressed) = Err e).
Proof.
  split.
  - intros H0. unfold SigningKey.addPoints.
    rewrite outcome_bind, trace_bind, H0. split; [reflexivity|apply app_nil_r].
  - intros h0 pub0 H0 Hpub0 H1. unfold SigningKey.addPoints.
    rewrite outcome_bind, H0, outcome_bind. cbn [outcome engine snd].
    now rewrite Hpub0, outcome_bind, H1.
Qed.

(** X11. [recoverPublicKey] checks the digest first: a digest that decodes
    to a length other than 32 bytes gives the argument error naming
    [digest], whatever the signature, and no engine call is made. *)
Theorem recoverPublicKey_digest_length (digest : BytesLike)
    (signature : Signature.like) (len : nat) :
  Utils.dataLength digest = OK len ->
  len <> 32%nat ->
  SigningKey.recoverPublicKey E digest signature
  = ([], Err (InvalidArgument "invalid digest length" "digest" (VBytes digest))).
Proof.
  intros Hlen Hne. apply Nat.eqb_neq in Hne.
  unfold SigningKey.recoverPublicKey. rewrite Hlen. cbn. now rewrite Hne.
Qed.

Lemma computeShardSecret_ext (this : SigningKey.t) (other1 other2 : BytesLike) :
  outcome (SigningKey.computePublicKey E other1 None)
  = outcome (SigningKey.computePublicKey E other2 None) ->
  outcome (SigningKey.computeShardSecret E this other1)
  = outcome (SigningKey.computeShardSecret E this other2).
Proof.
  intros H. unfold SigningKey.computeShardSecret.
  now rewrite !(outcome_bind (SigningKey.computePublicKey E _ None)), H.
Qed.

(** X12. The other key may be of any kind: under the engine's contract
    for encodings, for a key [other] that [computePublicKey] accepts,
    [computeShardSecret] gives the same outcome for [other] and for the
    public key of [other] in either form. *)
Theorem computeShardSecret_any_key (this : SigningKey.t) (other : BytesLike)
    (c : option bool) (pub : string) :
  Contract.encoding_lengths E ->
  Contract.point_codec E ->
  Contract.public_key_point E ->
  outcome (SigningKey.computePublicKey E other c) = OK pub ->
  outcome (SigningKey.computeShardSecret E this (Str pub))
  = outcome (SigningKey.computeShardSecret E this other).
Proof.
  intros Hlen Hcodec Hpub H. apply computeShardSecret_ext.
  exact (computePublicKey_again E other c None pub Hlen Hcodec Hpub H).
Qed.

(** X13. When [computePublicKey] refuses the other key, [computeShardSecret]
    gives that exception and the engine's [getSharedSecret] is not
    called. *)
Theorem computeShardSecret_bad_key (this : SigningKey.t) (other : BytesLike)
    (e : error) :
  outcome (SigningKey.computePublicKey E other None) = Err e ->
  outcome (SigningKey.computeShardSecret E this other) = Err e
  /\ ~ In call_getSharedSecret (trace (SigningKey.computeShardSecret E this other)).
Proof.
  intros H. unfold SigningKey.computeShardSecret.
  rewrite outcome_bind, trace_bind, H, app_nil_r. split; [reflexivity|].
  unfold SigningKey.computePublicKey.
  destruct (Utils.getBytes other "key") as [bytes|e']; cbn [lift bind trace fst];
    [|intros []].
  destruct (Nat.eqb (List.length bytes) 32).
  - destruct (secp256k1.getPublicKey E bytes (truthy None)); cbn;
      intros [Hc|[]]; discriminate.
  - destruct (if Nat.eqb (List.length bytes) 64 then _ else _) as [t [bs|e']] eqn:Hpre.
    + assert (t = []) as ->.
      { destruct (Nat.eqb (List.length bytes) 64).
        - unfold lift in Hpre. now inversion Hpre.
        - unfold ret in Hpre. now inversion Hpre. }
      cbn [bind].
      destruct (secp256k1.Point_fromHex E (HexBytes bs)); cbn;
        intuition discriminate.
    + assert (t = []) as ->.
      { destruct (Nat.eqb (List.length bytes) 64).
        - unfold lift in Hpre. now inversion Hpre.
        - unfold ret in Hpre. discriminate. }
      cbn. intros [].
Qed.

End FurtherOperations.

(** ** The further properties on the small engine *)

Lemma sign_recovery_truthy_witness :
  exists d k der recid,
    Utils.getBytes SmallEngine.sample_digest "value" = OK d
    /\ Utils.getBytes (Str (SigningKey.privateKey SmallEngine.sample_signer))
         "value" = OK k
    /\ secp256k1.signSync SmallEngine.engine d k (secp256k1.mkSignOptions true true)
       = OK (der, recid)
    /\ (Signature.v SmallEngine.sample_signature = 27 <-> recid = 0)
    /\ (Signature.v SmallEngine.sample_signature = 28 <-> recid <> 0)
    /\ (Signature.yParity SmallEngine.sample_signature = recid
        <-> recid = 0 \/ recid = 1).
Proof.
  apply (sign_recovery_truthy SmallEngine.engine SmallEngine.sample_signer
           SmallEngine.sample_digest SmallEngine.sample_signature).
  vm_compute. reflexivity.
Defined.


(** The small engine refuses the key zero. *)
Lemma sign_engine_failure_witness :
  SigningKey.sign SmallEngine.engine SmallEngine.zero_signer SmallEngine.sample_digest
  = ([call_signSync], Err (EngineError "signSync: invalid digest or key")).
Proof.
  apply (proj1 (sign_engine_failure SmallEngine.engine SmallEngine.zero_signer
                  SmallEngine.sample_digest (SmallEngine.scalar x09)
                  (SmallEngine.scalar x00) eq_refl eq_refl eq_refl)).
  vm_compute. reflexivity.
Defined.

Lemma computePublicKey_idempotent_witness :
  exists out',
    outcome (SigningKey.computePublicKey SmallEngine.engine SmallEngine.sample_key
               (Some true)) = OK out'
    /\ outcome (SigningKey.computePublicKey SmallEngine.engine
                  (Str SmallEngine.sample_public) (Some true)) = OK out'
    /\ (truthy None = truthy (Some true) -> out' = SmallEngine.sample_public).
Proof.
  apply (computePublicKey_idempotent SmallEngine.engine SmallEngine.sample_key
           None (Some true) SmallEngine.sample_public
           SmallEngineFacts.encoding_lengths SmallEngineFacts.point_codec
           SmallEngineFacts.public_key_point).
  vm_compute. reflexivity.
Defined.

Lemma publicKey_text_witness :
  SigningKey.publicKey SmallEngine.engine SmallEngine.sample_signer
  = SigningKey.computePublicKey SmallEngine.engine SmallEngine.sample_key None
  /\ forall pub,
      outcome (SigningKey.publicKey SmallEngine.engine SmallEngine.sample_signer)
      = OK pub ->
      String.length pub = 132%nat /\ exists rest, pub = "0x04" ++ rest.
Proof.
  apply (publicKey_text SmallEngine.engine SmallEngine.sample_key
           SmallEngine.sample_signer SmallEngineFacts.encoding_lengths
           SmallEngineFacts.public_key_point).
  vm_compute. reflexivity.
Defined.

Lemma compressedPublicKey_text_witness :
  SigningKey.compressedPublicKey SmallEngine.engine SmallEngine.sample_signer
  = SigningKey.computePublicKey SmallEngine.engine SmallEngine.sample_key (Some true)
  /\ forall cpub,
      outcome (SigningKey.compressedPublicKey SmallEngine.engine
                 SmallEngine.sample_signer) = OK cpub ->
      String.length cpub = 68%nat
      /\ (exists rest, cpub = "0x02" ++ rest \/ cpub = "0x03" ++ rest)
      /\ exists pub,
          outcome (SigningKey.publicKey SmallEngine.engine SmallEngine.sample_signer)
          = OK pub
          /\ outcome (SigningKey.computePublicKey SmallEngine.engine (Str pub)
                        (Some true)) = OK cpub.
Proof.
  apply (compressedPublicKey_text SmallEngine.engine SmallEngine.sample_key
           SmallEngine.sample_signer SmallEngineFacts.encoding_lengths
           SmallEngineFacts.compressed_prefix SmallEngineFacts.point_codec
           SmallEngineFacts.public_key_point).
  vm_compute. reflexivity.
Defined.

(** The empty key goes to the engine, which refuses it. *)
Lemma computePublicKey_engine_failure_witness :
  SigningKey.computePublicKey SmallEngine.engine (Bytes []) None
  = ([call_Point_fromHex], Err (EngineError "Point.fromHex: bad prefix")).
Proof.
  apply (proj2 (computePublicKey_engine_failure SmallEngine.engine (Bytes []) None []
                  (EngineError "Point.fromHex: bad prefix") eq_refl));
    [discriminate | discriminate | reflexivity].
Defined.

Lemma addPoints_sum_witness :
  outcome (SigningKey.addPoints SmallEngine.engine SmallEngine.sample_key
             SmallEngine.sample_other (Some true))
  = OK ("0x" ++ Hex.bytesToHex (SmallEngine.encode (SmallEngine.mkPoint x0c false) true))
  /\ exists (P0 P1 : secp256k1.Point SmallEngine.engine),
    decodePoint SmallEngine.engine SmallEngine.sample_public = OK P0
    /\ decodePoint SmallEngine.engine
         ("0x" ++ Hex.bytesToHex
                    (SmallEngine.encode (SmallEngine.mkPoint x05 false) false))
       = OK P1
    /\ (forall R,
          secp256k1.Point_add SmallEngine.engine P0 P1 = OK R ->
          outcome (SigningKey.addPoints SmallEngine.engine SmallEngine.sample_key
                     SmallEngine.sample_other (Some true))
          = OK ("0x" ++ Hex.bytesToHex
                          (secp256k1.Point_toRawBytes SmallEngine.engine R
                             (truthy (Some true))))
          /\ decodePoint SmallEngine.engine
               ("0x" ++ Hex.bytesToHex
                          (secp256k1.Point_toRawBytes SmallEngine.engine R
                             (truthy (Some true))))
             = OK R)
    /\ (forall e,
          secp256k1.Point_add SmallEngine.engine P0 P1 = Err e ->
          outcome (SigningKey.addPoints SmallEngine.engine SmallEngine.sample_key
                     SmallEngine.sample_other (Some true)) = Err e).
Proof.
  split; [vm_compute; reflexivity|].
  apply (addPoints_sum SmallEngine.engine SmallEngine.sample_key
           SmallEngine.sample_other (Some true) SmallEngine.sample_public
           ("0x" ++ Hex.bytesToHex
                      (SmallEngine.encode (SmallEngine.mkPoint x05 false) false))
           SmallEngineFacts.point_codec SmallEngineFacts.hex_text
           SmallEngineFacts.public_key_point SmallEngineFacts.toHex_encoding);
    vm_compute; reflexivity.
Defined.

(** A first key that is not bytes: nothing is done for the second. *)
Lemma addPoints_first_failure_witness :
  outcome (SigningKey.addPoints SmallEngine.engine SmallEngine.not_bytes
             SmallEngine.sample_key None)
  = Err (InvalidArgument "invalid BytesLike value" "key"
           (VBytes SmallEngine.not_bytes))
  /\ trace (SigningKey.addPoints SmallEngine.engine SmallEngine.not_bytes
              SmallEngine.sample_key None)
     = trace (SigningKey.computePublicKey SmallEngine.engine
                SmallEngine.not_bytes None).
Proof.
  apply (proj1 (addPoints_first_failure SmallEngine.engine SmallEngine.not_bytes
                  SmallEngine.sample_key None
                  (InvalidArgument "invalid BytesLike value" "key"
                     (VBytes SmallEngine.not_bytes)))).
  reflexivity.
Defined.

Lemma recoverPublicKey_digest_length_witness :
  SigningKey.recoverPublicKey SmallEngine.engine (Bytes (repeat x00 31))
    SmallEngine.zero_r_signature
  = ([], Err (InvalidArgument "invalid digest length" "digest"
                (VBytes (Bytes (repeat x00 31))))).
Proof.
  apply (recoverPublicKey_digest_length SmallEngine.engine (Bytes (repeat x00 31))
           SmallEngine.zero_r_signature 31 eq_refl).
  discriminate.
Defined.

(** The secret shared with a private key is the secret shared with its
    compressed public key. *)
Lemma computeShardSecret_any_key_witness :
  outcome (SigningKey.computeShardSecret SmallEngine.engine SmallEngine.sample_signer
             (Str ("0x" ++ Hex.bytesToHex
                             (SmallEngine.encode (SmallEngine.mkPoint x05 false) true))))
  = outcome (SigningKey.computeShardSecret SmallEngine.engine
               SmallEngine.sample_signer (Bytes (SmallEngine.scalar x05))).
Proof.
  apply (computeShardSecret_any_key SmallEngine.engine SmallEngine.sample_signer
           (Bytes (SmallEngine.scalar x05)) (Some true)
           ("0x" ++ Hex.bytesToHex
                      (SmallEngine.encode (SmallEngine.mkPoint x05 false) true))
           SmallEngineFacts.encoding_lengths SmallEngineFacts.point_codec
           SmallEngineFacts.public_key_point).
  vm_compute. reflexivity.
Defined.

Lemma computeShardSecret_bad_key_witness :
  outcome (SigningKey.computeShardSecret SmallEngine.engine SmallEngine.sample_signer
             SmallEngine.not_bytes)
  = Err (InvalidArgument "invalid BytesLike value" "key"
           (VBytes SmallEngine.not_bytes))
  /\ ~ In call_getSharedSecret
         (trace (SigningKey.computeShardSecret SmallEngine.engine
                   SmallEngine.sample_signer SmallEngine.not_bytes)).
Proof.
  apply (computeShardSecret_bad_key SmallEngine.engine SmallEngine.sample_signer
           SmallEngine.not_bytes
           (InvalidArgument "invalid BytesLike value" "key"
              (VBytes SmallEngine.not_bytes))).
  reflexivity.
Defined.

Section FurtherAddition.

Variable E : secp256k1.CurveEngine.

Lemma addPoints_ext (p0 p0' p1 p1' : BytesLike) (compressed : option bool) :
  outcome (SigningKey.computePublicKey E p0 None)
  = outcome (SigningKey.computePublicKey E p0' None) ->
  outcome (SigningKey.computePublicKey E p1 None)
  = outcome (SigningKey.computePublicKey E p1' None) ->
  outcome (SigningKey.addPoints E p0 p1 compressed)
  = outcome (SigningKey.addPoints E p0' p1' compressed).
Proof.
  intros H0 H1. unfold SigningKey.addPoints.
  rewrite !(outcome_bind (SigningKey.computePublicKey E _ None)), H0.
  destruct (outcome (SigningKey.computePublicKey E p0' None)) as [h0|e];
    [|reflexivity].
  rewrite !(outcome_bind (engine call_Point_fromHex _)). cbn [outcome engine snd].
  destruct (secp256k1.Point_fromHex E (HexStr (Hex.substring_from 2 h0))) as [pub0|e];
    [|reflexivity].
  now rewrite !(outcome_bind (SigningKey.computePublicKey E _ None)), H1.
Qed.

(** X14. [addPoints] takes keys of any kind: under the engine's contract
    for encodings, for keys [computePublicKey] accepts, the outcome is the
    same for a key, private or public, and for the public key
    [computePublicKey] returns for it, in either form and in either
    argument. *)
Theorem addPoints_any_key (p0 p1 : BytesLike) (c0 c1 compressed : option bool)
    (h0 h1 : string) :
  Contract.encoding_lengths E ->
  Contract.point_codec E ->
  Contract.public_key_point E ->
  outcome (SigningKey.computePublicKey E p0 c0) = OK h0 ->
  outcome (SigningKey.computePublicKey E p1 c1) = OK h1 ->
  outcome (SigningKey.addPoints E (Str h0) (Str h1) compressed)
  = outcome (SigningKey.addPoints E p0 p1 compressed).
Proof.
  intros Hlen Hcodec Hpub H0 H1. apply addPoints_ext.
  - exact (computePublicKey_again E p0 c0 None h0 Hlen Hcodec Hpub H0).
  - exact (computePublicKey_again E p1 c1 None h1 Hlen Hcodec Hpub H1).
Qed.

End FurtherAddition.

(** The sum of a private key's point and a public key, from the private
    key and from its compressed public key. *)
Lemma addPoints_any_key_witness :
  outcome (SigningKey.addPoints SmallEngine.engine
             (Str ("0x" ++ Hex.bytesToHex
                             (SmallEngine.encode SmallEngine.sample_point true)))
             (Str ("0x" ++ Hex.bytesToHex
                             (SmallEngine.encode (SmallEngine.mkPoint x05 false) false)))
             None)
  = outcome (SigningKey.addPoints SmallEngine.engine SmallEngine.sample_key
               SmallEngine.sample_other None).
Proof.
  apply (addPoints_any_key SmallEngine.engine SmallEngine.sample_key
           SmallEngine.sample_other (Some true) None None
           ("0x" ++ Hex.bytesToHex (SmallEngine.encode SmallEngine.sample_point true))
           ("0x" ++ Hex.bytesToHex
                      (SmallEngine.encode (SmallEngine.mkPoint x05 false) false))
           SmallEngineFacts.encoding_lengths SmallEngineFacts.point_codec
           SmallEngineFacts.public_key_point);
    vm_compute; reflexivity.
Defined.
